(** * The per-resource synchronisation engine of vs/platform/userDataSync

    A shallow embedding of [abstractSynchronizer.ts] (class
    [AbstractSynchroniser] and its file-backed subclass) together with the
    properties of the engine that its specification states.

    Conventions of the embedding.
    - JavaScript values that come out of [JSON.parse] are of type [JsVal];
      objects are finite maps from property names to values.
    - An [async] method run to completion is a computation of the monad [M]:
      a function from the state of the engine and its collaborators to an
      outcome ([Ok], [Throw] or [Diverge]) and a new state.  The interleaving
      of two methods is studied separately, in [Module Turns].
    - Every interaction that an outside observer can see (events fired,
      telemetry, requests to the remote store, backups, deleted files,
      logged errors) is appended to the [trace] of the state.
      [logService.info] and [logService.trace] messages are left out.
    - The abstract methods of the class are variables of a section; the
      synchroniser of [synchronizer.test.ts] instantiates them. *)

From Stdlib Require Import ZArith Bool Ascii String.
From stdpp Require Import base decidable option list strings pretty countable gmap fin_maps.

Set Warnings "-register-all".
Local Open Scope string_scope.

(** ** JavaScript values *)

Inductive JsVal : Type :=
| JUndefined
| JNull
| JBool (b : bool)
| JNum (n : Z)
| JStr (s : string)
| JArr (l : list JsVal)
| JObj (m : gmap string JsVal).

(** [typeof thing] *)
Definition typeof (thing : JsVal) : string :=
  match thing with
  | JUndefined => "undefined"
  | JNull => "object"
  | JBool _ => "boolean"
  | JNum _ => "number"
  | JStr _ => "string"
  | JArr _ => "object"
  | JObj _ => "object"
  end.

(** Truthiness: [undefined], [null], [false], [0] and [""] are falsy. *)
Definition truthy (thing : JsVal) : bool :=
  match thing with
  | JUndefined | JNull => false
  | JBool b => b
  | JNum n => negb (Z.eqb n 0)
  | JStr s => negb (String.eqb s "")
  | JArr _ | JObj _ => true
  end.

(** [thing.key] on a value for which property access does not throw.  The
    engine only reads the properties [version], [content], [machineId] and
    [ref]; booleans, numbers, strings and arrays have none of them, neither
    of their own nor inherited. *)
Definition get (thing : JsVal) (key : string) : JsVal :=
  match thing with
  | JObj m => default JUndefined (m !! key)
  | _ => JUndefined
  end.

(** [thing.key] in general: a [TypeError] ([None]) on [null] and
    [undefined]. *)
Definition getprop (thing : JsVal) (key : string) : option JsVal :=
  match thing with
  | JUndefined | JNull => None
  | _ => Some (get thing key)
  end.

(** [Object.keys(thing).length] *)
Definition keys_length (thing : JsVal) : nat :=
  match thing with
  | JObj m => size m
  | JArr l => length l
  | JStr s => String.length s
  | _ => 0%nat
  end.

(** [thing !== undefined] *)
Definition is_defined (thing : JsVal) : bool :=
  match thing with JUndefined => false | _ => true end.

(** [a === b] between a value and a string or [undefined]; an object or an
    array is equal to neither. *)
Definition strict_eq (a b : JsVal) : bool :=
  match a, b with
  | JUndefined, JUndefined => true
  | JNull, JNull => true
  | JBool x, JBool y => Bool.eqb x y
  | JNum x, JNum y => Z.eqb x y
  | JStr x, JStr y => String.eqb x y
  | _, _ => false
  end.

(** ** The envelope [ISyncData] *)

(** [function isSyncData(thing: any): thing is ISyncData] *)
Definition isSyncData (thing : JsVal) : bool :=
  if truthy thing
     && (is_defined (get thing "version") && String.eqb (typeof (get thing "version")) "number")
     && (is_defined (get thing "content") && String.eqb (typeof (get thing "content")) "string")
  then
    (* backward compatibility *)
    if Nat.eqb (keys_length thing) 2 then true
    else if Nat.eqb (keys_length thing) 3
            && (is_defined (get thing "machineId")
                && String.eqb (typeof (get thing "machineId")) "string")
    then true
    else false
  else false.

(** [interface ISyncData { version: number; machineId?: string; content: string }] *)
Record ISyncData : Type := mkSyncData {
  version_of : Z;
  machineId_of : option string;
  content_of : string
}.

(** The object literal [{ version, content }] or
    [{ version, machineId, content }] of an envelope. *)
Definition syncData_object (d : ISyncData) : JsVal :=
  JObj (match machineId_of d with
        | Some id => <["machineId" := JStr id]>
        | None => fun m => m
        end (<["version" := JNum (version_of d)]>
               (<["content" := JStr (content_of d)]> ∅))).

(** The narrowing that the type guard [thing is ISyncData] licenses: the
    value seen at its declared type. *)
Definition as_ISyncData (thing : JsVal) : ISyncData :=
  {| version_of := match get thing "version" with JNum n => n | _ => 0%Z end;
     machineId_of := match get thing "machineId" with JStr s => Some s | _ => None end;
     content_of := match get thing "content" with JStr s => s | _ => "" end |}.

(** ** Data of the engine *)

(** [SyncResource]: the string-valued tag of the kind of user data. *)
Definition SyncResource : Type := string.

(** Modelled from the spec: the enumeration [SyncStatus] of userDataSync.ts,
    which is not among the sources; [Idle | Syncing | HasConflicts]. *)
Inductive SyncStatus : Type := Idle | Syncing | HasConflicts.

Global Instance SyncStatus_eq_dec : EqDecision SyncStatus.
Proof. solve_decision. Defined.

(** [URI.from({ scheme, authority, path })] *)
Record URI : Type := mkURI { scheme : string; authority : string; path : string }.

Global Instance URI_eq_dec : EqDecision URI.
Proof. solve_decision. Defined.

Global Instance URI_countable : Countable URI.
Proof.
  refine (inj_countable' (fun u => (scheme u, authority u, path u))
                         (fun t => mkURI t.1.1 t.1.2 t.2) _).
  by intros [].
Defined.

(** [interface Conflict { local: URI; remote: URI }] *)
Record Conflict : Type := mkConflict { local : URI; remote : URI }.

Global Instance Conflict_eq_dec : EqDecision Conflict.
Proof. solve_decision. Defined.

(** [IHeaders]: a dictionary of request headers. *)
Abbreviation IHeaders := (gmap string string).

(** [interface IUserData { ref: string; content: string | null }].  The
    reference is declared a string; the engine also builds this record from
    the parsed last-sync file without checking it, so it is kept as the
    JavaScript value that it is at run time. *)
Record IUserData : Type := mkUserData { ud_ref : JsVal; ud_content : option string }.

(** [interface IRemoteUserData { ref: string; syncData: ISyncData | null }],
    with the further own properties that the object carries ([additional]):
    a last-sync record holds strategy-specific ones. *)
Record IRemoteUserData : Type := mkRemoteUserData {
  ref : JsVal;
  syncData : option ISyncData;
  additional : gmap string JsVal
}.

(** [interface IUserDataManifest { latest?: Record<ServerResource, string>; session: string }] *)
Record IUserDataManifest : Type := mkManifest {
  latest : option (gmap string string);
  session : string
}.

(** [interface ISyncPreview], with the further properties that a subclass
    adds to it ([more]), such as [ref] in [ITestSyncPreview]. *)
Record ISyncPreview : Type := mkPreview {
  remoteUserData : IRemoteUserData;
  lastSyncUserData : option IRemoteUserData;
  hasLocalChanged : bool;
  hasRemoteChanged : bool;
  hasConflicts : bool;
  isLastSyncFromCurrentMachine : bool;
  more : gmap string JsVal
}.

(** The codes of [UserDataSyncErrorCode] that the engine tells apart; the
    other members of the enumeration are [OtherCode]. *)
Inductive UserDataSyncErrorCode : Type :=
| Incompatible
| PreconditionFailed
| LocalPreconditionFailed
| OtherCode (name : string).

(** [FileOperationResult] *)
Inductive FileOperationResult : Type :=
| FILE_NOT_FOUND
| FILE_MODIFIED_SINCE
| FILE_OTHER_ERROR.

(** What a [throw] carries.  Messages are left out; a [UserDataSyncError]
    keeps its code and its optional resource. *)
Inductive JsError : Type :=
| UserDataSyncError (code : UserDataSyncErrorCode) (source : option SyncResource)
| FileOperationError (fileOperationResult : FileOperationResult)
| SyntaxError
| TypeError
| Canceled
| Error (message : string).

(** A settled [CancelablePromise<ISyncPreview>]: when a method has run to
    completion, the preview future it created is fulfilled or rejected. *)
Inductive CancelablePromise : Type :=
| Fulfilled (preview : ISyncPreview)
| Rejected (reason : JsError).

(** What an observer of the engine sees. *)
Inductive Event : Type :=
| DidChangeStatus (status : SyncStatus)
| DidChangeConflicts (conflicts : list Conflict)
| DidChangeLocal
| PublicLog (eventName : string) (source : SyncResource)
| LogError (error : JsError)
| StoreRead (lastSync : option IUserData) (headers : IHeaders)
| StoreWrite (data : string) (ifMatch : JsVal) (headers : IHeaders)
| StoreResolveContent (r : string)
| BackupStoreBackup (data : string)
| BackupStoreResolveContent (r : string)
| PreviewCancelled
| FileDeleted (file : URI).

(** The state: the private fields of [AbstractSynchroniser], the files of
    the file service, the trace, and the state [W] of the collaborators and
    of the concrete subclass. *)
Record State (W : Type) : Type := mkState {
  _status : SyncStatus;
  _conflicts : list Conflict;
  syncPreviewPromise : option CancelablePromise;
  syncHeaders : IHeaders;
  files : gmap URI string;
  trace : list Event;
  world : W
}.
Arguments mkState {W}.
Arguments _status {W}.
Arguments _conflicts {W}.
Arguments syncPreviewPromise {W}.
Arguments syncHeaders {W}.
Arguments files {W}.
Arguments trace {W}.
Arguments world {W}.

(** ** The monad of methods run to completion *)

Inductive Result (A : Type) : Type :=
| Ok (a : A)
| Throw (e : JsError)
| Diverge.
Arguments Ok {A}.
Arguments Throw {A}.
Arguments Diverge {A}.

Definition M (W A : Type) : Type := State W -> Result A * State W.

Module MonadNotation.
Declare Scope sync_scope.
Delimit Scope sync_scope with sync.
End MonadNotation.
Import MonadNotation.

Section Monad.
Context {W : Type}.

Definition ret {A} (a : A) : M W A := fun s => (Ok a, s).

Definition throw {A} (e : JsError) : M W A := fun s => (Throw e, s).

Definition bind {A B} (m : M W A) (k : A -> M W B) : M W B :=
  fun s =>
    match m s with
    | (Ok a, s') => k a s'
    | (Throw e, s') => (Throw e, s')
    | (Diverge, s') => (Diverge, s')
    end.

(** [try { m } catch (e) { h e }] *)
Definition try_catch {A} (m : M W A) (h : JsError -> M W A) : M W A :=
  fun s =>
    match m s with
    | (Throw e, s') => h e s'
    | r => r
    end.

(** [try { m } finally { f }], where [f] may read what [m] came to. *)
Definition try_finally {A} (m : M W A) (f : Result A -> M W unit) : M W A :=
  fun s =>
    match m s with
    | (Diverge, s') => (Diverge, s')
    | (r, s') =>
        match f r s' with
        | (Ok _, s'') => (r, s'')
        | (Throw e, s'') => (Throw e, s'')
        | (Diverge, s'') => (Diverge, s'')
        end
    end.

(** The outcome of [m] as a settled promise. *)
Definition settle (m : M W ISyncPreview) : M W CancelablePromise :=
  fun s =>
    match m s with
    | (Ok p, s') => (Ok (Fulfilled p), s')
    | (Throw e, s') => (Ok (Rejected e), s')
    | (Diverge, s') => (Diverge, s')
    end.

(** [await promise] *)
Definition await (promise : CancelablePromise) : M W ISyncPreview :=
  match promise with
  | Fulfilled p => ret p
  | Rejected e => throw e
  end.

Definition gets {A} (f : State W -> A) : M W A := fun s => (Ok (f s), s).

Definition modify (f : State W -> State W) : M W unit := fun s => (Ok tt, f s).

(** The state after an observable interaction. *)
Definition observed (ev : Event) (s : State W) : State W :=
  mkState (_status s) (_conflicts s) (syncPreviewPromise s)
    (syncHeaders s) (files s) (trace s ++ [ev]) (world s).

Definition emit (ev : Event) : M W unit := modify (observed ev).

(** A call of a collaborator, which acts on [W] alone. *)
Definition call {A} (f : W -> Result A * W) : M W A :=
  fun s =>
    let '(r, w) := f (world s) in
    (r, mkState (_status s) (_conflicts s) (syncPreviewPromise s)
          (syncHeaders s) (files s) (trace s) w).

Definition set_status (st : SyncStatus) : M W unit :=
  modify (fun s => mkState st (_conflicts s) (syncPreviewPromise s)
                     (syncHeaders s) (files s) (trace s) (world s)).

Definition set_conflicts (cs : list Conflict) : M W unit :=
  modify (fun s => mkState (_status s) cs (syncPreviewPromise s)
                     (syncHeaders s) (files s) (trace s) (world s)).

(** The state in which the preview future is [p]. *)
Definition with_preview (p : option CancelablePromise) (s : State W) : State W :=
  mkState (_status s) (_conflicts s) p (syncHeaders s) (files s) (trace s) (world s).

Definition set_syncPreviewPromise (p : option CancelablePromise) : M W unit :=
  modify (with_preview p).

Definition set_syncHeaders (h : IHeaders) : M W unit :=
  modify (fun s => mkState (_status s) (_conflicts s) (syncPreviewPromise s)
                     h (files s) (trace s) (world s)).

Definition set_files (fs : gmap URI string) : M W unit :=
  modify (fun s => mkState (_status s) (_conflicts s) (syncPreviewPromise s)
                     (syncHeaders s) fs (trace s) (world s)).
End Monad.

Notation "x <- m ;; k" := (bind m (fun x => k))
  (at level 100, m at next level, right associativity) : sync_scope.
Notation "m ;; k" := (bind m (fun _ => k))
  (at level 100, right associativity) : sync_scope.
Local Open Scope sync_scope.

(** ** What the engine is given *)

(** The built-in functions of the language that the engine calls.
    [JSON_parse] is [None] where [JSON.parse] throws a [SyntaxError];
    [ToString] is the conversion that [JSON.parse] applies to an argument
    that is not a string. *)
Record Builtins : Type := mkBuiltins {
  JSON_stringify : JsVal -> string;
  JSON_parse : string -> option JsVal;
  ToString : JsVal -> string
}.

(** The collaborators of one engine instance, which serve its resource:
    the enablement service, the remote store
    ([IUserDataSyncStoreService]), the local backup store
    ([IUserDataSyncBackupStoreService]), the machine id and the sync home
    of the environment service. *)
Record Services (W : Type) : Type := mkServices {
  resource : SyncResource;
  userDataSyncHome : URI;
  currentMachineId : string;
  isResourceEnabled : W -> bool;
  store_read : option IUserData -> IHeaders -> W -> Result IUserData * W;
  store_write : string -> JsVal -> IHeaders -> W -> Result string * W;
  store_resolveContent : string -> W -> Result (option string) * W;
  backup_backup : string -> W -> Result unit * W;
  backup_resolveContent : string -> W -> Result (option string) * W
}.
Arguments resource {W}.
Arguments userDataSyncHome {W}.
Arguments currentMachineId {W}.
Arguments isResourceEnabled {W}.
Arguments store_read {W}.
Arguments store_write {W}.
Arguments store_resolveContent {W}.
Arguments backup_backup {W}.
Arguments backup_resolveContent {W}.

(** The abstract methods of [AbstractSynchroniser] (the cancellation token
    of the generators is left out: a method run to completion is not
    cancelled), and the two methods that subclasses in this repository
    override, each given the implementation it overrides ([super]).  The
    abstract property [version] is a variable of its own below, since the
    helpers that a subclass calls from these methods depend on it. *)
Record Synchroniser (W : Type) : Type := mkSynchroniser {
  generatePullPreview : IRemoteUserData -> option IRemoteUserData -> M W ISyncPreview;
  generatePushPreview : IRemoteUserData -> option IRemoteUserData -> M W ISyncPreview;
  generateReplacePreview :
    ISyncData -> IRemoteUserData -> option IRemoteUserData -> M W ISyncPreview;
  generatePreview : IRemoteUserData -> option IRemoteUserData -> M W ISyncPreview;
  updatePreviewWithConflict : ISyncPreview -> URI -> string -> M W ISyncPreview;
  applyPreview : ISyncPreview -> bool -> M W unit;
  override_doSync :
    (IRemoteUserData -> option IRemoteUserData -> M W SyncStatus) ->
    IRemoteUserData -> option IRemoteUserData -> M W SyncStatus;
  override_stop : M W unit -> M W unit
}.
Arguments generatePullPreview {W}.
Arguments generatePushPreview {W}.
Arguments generateReplacePreview {W}.
Arguments generatePreview {W}.
Arguments updatePreviewWithConflict {W}.
Arguments applyPreview {W}.
Arguments override_doSync {W}.
Arguments override_stop {W}.

(** ** Resources *)

(** Modelled from the spec: [joinPath] of vs/base/common/resources, which
    is not among the sources; the persisted state lies at
    [<syncHome>/<resource>/lastSync<Resource>.json]. *)
Definition joinPath (u : URI) (segment : string) : URI :=
  mkURI (scheme u) (authority u) (path u ++ "/" ++ segment).

(** The part of [p] after its last ['/'], [acc] being the part read since
    the last one. *)
Fixpoint last_segment (p acc : string) : string :=
  match p with
  | EmptyString => acc
  | String c rest =>
      if String.eqb (String c "") "/" then last_segment rest ""
      else last_segment rest (acc ++ String c "")
  end.

(** Modelled from the spec: [basename] of vs/base/common/resources, which
    is not among the sources; the ref is recovered as the final path
    segment. *)
Definition basename (u : URI) : string := last_segment (path u) "".

(** Modelled from the spec: [isEqual] of vs/base/common/resources, which is
    not among the sources; equality by URI. *)
Definition isEqual (a b : URI) : bool := bool_decide (a = b).

(** Modelled from the spec: the constant [USER_DATA_SYNC_SCHEME] of
    userDataSync.ts, which is not among the sources; the scheme of a handle
    is [user-data-sync]. *)
Definition USER_DATA_SYNC_SCHEME : string := "user-data-sync".

(** [{ ...thing }]: the own enumerable properties of a value. *)
Definition own_properties (thing : JsVal) : gmap string JsVal :=
  match thing with
  | JObj m => m
  | JArr l => list_to_map (imap (fun i x => (pretty i, x)) l)
  | JStr s =>
      list_to_map (imap (fun i c => (pretty i, JStr (String c "")))
                         (Stdlib.Strings.String.list_ascii_of_string s))
  | _ => ∅
  end.

(** ** [class AbstractSynchroniser] *)

Section AbstractSynchroniser.
Context {W : Type}.
Variable js : Builtins.
Variable svc : Services W.
(** [protected abstract readonly version: number] *)
Variable version : Z.
Variable this : Synchroniser W.

(** The constructor's [syncFolder] and [lastSyncResource]. *)
Definition syncFolder : URI := joinPath (userDataSyncHome svc) (resource svc).

Definition lastSyncResource : URI :=
  joinPath syncFolder ("lastSync" ++ resource svc ++ ".json").

(** *** The file service *)

Definition readFile (file : URI) : M W string :=
  fs <- gets files ;;
  match fs !! file with
  | Some text => ret text
  | None => throw (FileOperationError FILE_NOT_FOUND)
  end.

Definition writeFile (file : URI) (text : string) : M W unit :=
  fs <- gets files ;;
  set_files (<[file := text]> fs).

Definition del (file : URI) : M W unit :=
  fs <- gets files ;;
  match fs !! file with
  | Some _ => set_files (delete file fs) ;; emit (FileDeleted file)
  | None => throw (FileOperationError FILE_NOT_FOUND)
  end.

(** *** Status and conflicts *)

Definition isEnabled : M W bool := gets (fun s => isResourceEnabled svc (world s)).

Definition setConflicts (conflicts : list Conflict) : M W unit :=
  current <- gets _conflicts ;;
  if bool_decide (current = conflicts) then ret tt
  else set_conflicts conflicts ;; emit (DidChangeConflicts conflicts).

Definition setStatus (status : SyncStatus) : M W unit :=
  oldStatus <- gets _status ;;
  if bool_decide (oldStatus <> status) then
    set_status status ;;
    emit (DidChangeStatus status) ;;
    (if bool_decide (status = HasConflicts)
     then emit (PublicLog "sync/conflictsDetected" (resource svc))
     else ret tt) ;;
    (if bool_decide (oldStatus = HasConflicts) && bool_decide (status = Idle)
     then emit (PublicLog "sync/conflictsResolved" (resource svc))
     else ret tt) ;;
    now <- gets _status ;;
    if bool_decide (now <> HasConflicts) then setConflicts [] else ret tt
  else ret tt.

(** [AbstractSynchroniser.stop] *)
Definition stop : M W unit :=
  promise <- gets syncPreviewPromise ;;
  (match promise with
   | Some _ => emit PreviewCancelled ;; set_syncPreviewPromise None
   | None => ret tt
   end) ;;
  setStatus Idle.

(** [this.stop()], whichever class implements it. *)
Definition this_stop : M W unit := override_stop this stop.

(** *** Envelopes and the remote store *)

Definition incompatible : JsError :=
  UserDataSyncError Incompatible (Some (resource svc)).

Definition parseSyncData (content : string) : M W ISyncData :=
  match JSON_parse js content with
  | Some thing =>
      if isSyncData thing then ret (as_ISyncData thing) else throw incompatible
  | None => emit (LogError SyntaxError) ;; throw incompatible
  end.

(** The record that [getUserData] hands to the remote store for a
    last-sync record. *)
Definition userData_of (lastSyncData : IRemoteUserData) : IUserData :=
  mkUserData (ref lastSyncData)
    (match syncData lastSyncData with
     | Some d => Some (JSON_stringify js (syncData_object d))
     | None => None
     end).

(** [getUserData(refOrLastSyncData: string | IRemoteUserData | null)] *)
Definition getUserData (refOrLastSyncData : string + option IRemoteUserData)
  : M W IUserData :=
  match refOrLastSyncData with
  | inl r =>
      emit (StoreResolveContent r) ;;
      content <- call (store_resolveContent svc r) ;;
      ret (mkUserData (JStr r) content)
  | inr lastSyncData =>
      let lastSyncUserData := userData_of <$> lastSyncData in
      headers <- gets syncHeaders ;;
      emit (StoreRead lastSyncUserData headers) ;;
      call (store_read svc lastSyncUserData headers)
  end.

Definition getRemoteUserData (lastSyncData : option IRemoteUserData)
  : M W IRemoteUserData :=
  userData <- getUserData (inr lastSyncData) ;;
  match ud_content userData with
  | Some content =>
      d <- parseSyncData content ;;
      ret (mkRemoteUserData (ud_ref userData) (Some d) ∅)
  | None => ret (mkRemoteUserData (ud_ref userData) None ∅)
  end.

Definition updateRemoteUserData (content : string) (r : JsVal)
  : M W IRemoteUserData :=
  let machineId := currentMachineId svc in
  let d := mkSyncData version (Some machineId) content in
  headers <- gets syncHeaders ;;
  emit (StoreWrite (JSON_stringify js (syncData_object d)) r headers) ;;
  r' <- call (store_write svc (JSON_stringify js (syncData_object d)) r headers) ;;
  ret (mkRemoteUserData (JStr r') (Some d) ∅).

Definition backupLocal (content : string) : M W unit :=
  let d := mkSyncData version None content in
  emit (BackupStoreBackup (JSON_stringify js (syncData_object d))) ;;
  call (backup_backup svc (JSON_stringify js (syncData_object d))).

(** *** The last-sync record *)

(** [JSON.parse(value)] *)
Definition JSON_parse_value (value : JsVal) : M W JsVal :=
  let text := match value with JStr s => s | _ => ToString js value end in
  match JSON_parse js text with
  | Some thing => ret thing
  | None => throw SyntaxError
  end.

(** [{ ...parsed, ...{ syncData, content: undefined } }] as an
    [IRemoteUserData]: its [ref], its [syncData], and its other own
    properties. *)
Definition lastSync_of (parsed : JsVal) (d : ISyncData) : IRemoteUserData :=
  mkRemoteUserData (get (JObj (own_properties parsed)) "ref") (Some d)
    (delete "ref" (delete "syncData"
       (<["content" := JUndefined]> (own_properties parsed)))).

Definition getLastSyncUserData : M W (option IRemoteUserData) :=
  try_catch
    (text <- readFile lastSyncResource ;;
     parsed <- JSON_parse_value (JStr text) ;;
     match getprop parsed "content" with
     | None => throw TypeError
     | Some JNull => ret (Some (mkRemoteUserData (get parsed "ref") None ∅))
     | Some content =>
         thing <- JSON_parse_value content ;;
         (* Check if syncData is of expected type. Return only if matches *)
         if isSyncData thing
         then ret (Some (lastSync_of parsed (as_ISyncData thing)))
         else ret None
     end)
    (fun error =>
       match error with
       | FileOperationError FILE_NOT_FOUND => ret None
       | _ => emit (LogError error) ;; ret None
       end).

(** [{ ref: ..., content: ..., ...additionalProps }]: the additional
    properties come last and win. *)
Definition lastSync_record (lastSyncRemoteUserData : IRemoteUserData)
    (additionalProps : gmap string JsVal) : JsVal :=
  JObj (additionalProps ∪
        <["ref" := ref lastSyncRemoteUserData]>
          (<["content" := match syncData lastSyncRemoteUserData with
                          | Some d => JStr (JSON_stringify js (syncData_object d))
                          | None => JNull
                          end]> ∅)).

Definition updateLastSyncUserData (lastSyncRemoteUserData : IRemoteUserData)
    (additionalProps : gmap string JsVal) : M W unit :=
  let lastSyncUserData := lastSync_record lastSyncRemoteUserData additionalProps in
  writeFile lastSyncResource (JSON_stringify js lastSyncUserData).

Definition hasPreviouslySynced : M W bool :=
  lastSyncData <- getLastSyncUserData ;;
  ret (bool_decide (is_Some lastSyncData)).

(** *** The latest remote data *)

(** [manifest && manifest.latest ? manifest.latest[this.resource] : undefined] *)
Definition latestRef_of (manifest : option IUserDataManifest) : JsVal :=
  match manifest with
  | Some m =>
      match latest m with
      | Some refs =>
          match refs !! resource svc with
          | Some r => JStr r
          | None => JUndefined
          end
      | None => JUndefined
      end
  | None => JUndefined
  end.

Definition getLatestRemoteUserData (manifest : option IUserDataManifest)
    (lastSyncUserData : option IRemoteUserData) : M W IRemoteUserData :=
  match lastSyncUserData with
  | Some lastSync =>
      let latestRef := latestRef_of manifest in
      (* Last time synced resource and latest resource on server are same *)
      if strict_eq (ref lastSync) latestRef then ret lastSync
      (* There is no resource on server and last time it was synced with no resource *)
      else if strict_eq latestRef JUndefined
              && match syncData lastSync with None => true | Some _ => false end
      then ret lastSync
      else getRemoteUserData lastSyncUserData
  | None => getRemoteUserData lastSyncUserData
  end.

(** *** The reconciliation step and its retry loop *)

(** [AbstractSynchroniser.doSync] *)
Definition doSync (remoteUserData : IRemoteUserData)
    (lastSyncUserData : option IRemoteUserData) : M W SyncStatus :=
  try_catch
    ((* generate or use existing preview *)
     existing <- gets syncPreviewPromise ;;
     promise <- match existing with
                | None =>
                    created <- settle (generatePreview this remoteUserData
                                         lastSyncUserData) ;;
                    set_syncPreviewPromise (Some created) ;;
                    ret created
                | Some p => ret p
                end ;;
     preview <- await promise ;;
     if hasConflicts preview then ret HasConflicts
     else
       (* apply preview *)
       applyPreview this preview false ;;
       (* reset preview *)
       set_syncPreviewPromise None ;;
       ret Idle)
    (fun error =>
       (* reset preview on error *)
       set_syncPreviewPromise None ;;
       throw error).

(** [this.doSync(...)], whichever class implements it. *)
Definition this_doSync : IRemoteUserData -> option IRemoteUserData -> M W SyncStatus :=
  override_doSync this doSync.

(** [remoteUserData.syncData && remoteUserData.syncData.version > this.version] *)
Definition newer_than_this (remoteUserData : IRemoteUserData) : bool :=
  match syncData remoteUserData with
  | Some d => Z.gtb (version_of d) version
  | None => false
  end.

(** [performSync], which calls itself without bound: [fuel] bounds the
    depth of the recursion, and [Diverge] is what is left when it runs
    out. *)
Fixpoint performSync (fuel : nat) (remoteUserData : IRemoteUserData)
    (lastSyncUserData : option IRemoteUserData) : M W SyncStatus :=
  match fuel with
  | O => fun s => (Diverge, s)
  | S fuel' =>
      if newer_than_this remoteUserData then
        (* current version is not compatible with cloud version *)
        emit (PublicLog "sync/incompatible" (resource svc)) ;;
        throw incompatible
      else
        try_catch (this_doSync remoteUserData lastSyncUserData)
          (fun e =>
             match e with
             | UserDataSyncError LocalPreconditionFailed _ =>
                 (* Rejected as there is a new local version. Syncing again... *)
                 performSync fuel' remoteUserData lastSyncUserData
             | UserDataSyncError PreconditionFailed _ =>
                 (* Rejected as there is a new remote version. Syncing again... *)
                 (* Avoid cache and get latest remote user data *)
                 remoteUserData' <- getRemoteUserData None ;;
                 (* Get the latest last sync user data. *)
                 lastSyncUserData' <- getLastSyncUserData ;;
                 performSync fuel' remoteUserData' lastSyncUserData'
             | _ => throw e
             end)
  end.

(** *** The public operations *)

Definition sync (fuel : nat) (manifest : option IUserDataManifest)
    (headers : IHeaders) : M W unit :=
  try_finally
    (set_syncHeaders headers ;;
     enabled <- isEnabled ;;
     if negb enabled then
       status <- gets _status ;;
       if bool_decide (status <> Idle) then this_stop else ret tt
     else
       status <- gets _status ;;
       if bool_decide (status = HasConflicts) then ret tt
       else if bool_decide (status = Syncing) then ret tt
       else
         setStatus Syncing ;;
         lastSyncUserData <- getLastSyncUserData ;;
         remoteUserData <- getLatestRemoteUserData manifest lastSyncUserData ;;
         try_finally (performSync fuel remoteUserData lastSyncUserData)
           (fun r => setStatus (match r with Ok status => status | _ => Idle end)) ;;
         ret tt)
    (fun _ => set_syncHeaders ∅).

Definition toRemoteBackupResource (r : string) : URI :=
  mkURI USER_DATA_SYNC_SCHEME "remote-backup" ("/" ++ resource svc ++ "/" ++ r).

Definition toLocalBackupResource (r : string) : URI :=
  mkURI USER_DATA_SYNC_SCHEME "local-backup" ("/" ++ resource svc ++ "/" ++ r).

Definition resolveContent (uri : URI) : M W (option string) :=
  let r := basename uri in
  if isEqual uri (toRemoteBackupResource r) then
    userData <- getUserData (inl r) ;;
    ret (ud_content userData)
  else if isEqual uri (toLocalBackupResource r) then
    emit (BackupStoreResolveContent r) ;;
    call (backup_resolveContent svc r)
  else ret None.

(** [replace]: [!content] holds of [null] and of the empty string;
    [!syncData] holds of no envelope, since [parseSyncData] returns an
    object or throws. *)
Definition replace (uri : URI) : M W bool :=
  resolved <- resolveContent uri ;;
  match resolved with
  | None => ret false
  | Some content =>
      if String.eqb content "" then ret false
      else
        d <- parseSyncData content ;;
        this_stop ;;
        try_finally
          (setStatus Syncing ;;
           lastSyncUserData <- getLastSyncUserData ;;
           remoteUserData <- getLatestRemoteUserData None lastSyncUserData ;;
           preview <- generateReplacePreview this d remoteUserData lastSyncUserData ;;
           applyPreview this preview false)
          (fun _ => setStatus Idle) ;;
        ret true
  end.

Definition getSyncPreviewInProgress : M W (option ISyncPreview) :=
  promise <- gets syncPreviewPromise ;;
  match promise with
  | Some p => preview <- await p ;; ret (Some preview)
  | None => ret None
  end.

Definition acceptConflict (conflictUri : URI) (conflictContent : string) : M W unit :=
  inProgress <- getSyncPreviewInProgress ;;
  match inProgress with
  | None => ret tt
  | Some preview =>
      if negb (hasConflicts preview) then ret tt
      else
        promise <- settle (updatePreviewWithConflict this preview conflictUri
                             conflictContent) ;;
        set_syncPreviewPromise (Some promise) ;;
        preview' <- await promise ;;
        if negb (hasConflicts preview') then
          (* apply preview *)
          applyPreview this preview' false ;;
          (* reset preview *)
          set_syncPreviewPromise None ;;
          setStatus Idle
        else ret tt
  end.

Definition doTriggerLocalChange (fuel : nat) : M W unit :=
  status <- gets _status ;;
  (* Sync again if current status is in conflicts *)
  if bool_decide (status = HasConflicts) then
    promise <- gets syncPreviewPromise ;;
    awaited <- match promise with
               | Some p => preview <- await p ;; ret (Some preview)
               | None => ret None
               end ;;
    set_syncPreviewPromise None ;;
    match awaited with
    | None => throw TypeError
    | Some preview =>
        status' <- performSync fuel (remoteUserData preview) (lastSyncUserData preview) ;;
        setStatus status'
    end
  (* Check if local change causes remote change *)
  else
    lastSyncUserData <- getLastSyncUserData ;;
    hasRemoteChanged <-
      match lastSyncUserData with
      | Some lastSync =>
          preview <- generatePreview this lastSync lastSyncUserData ;;
          ret (hasRemoteChanged preview)
      | None => ret true
      end ;;
    if hasRemoteChanged then emit DidChangeLocal else ret tt.

Definition generateSyncPreview : M W (option ISyncPreview) :=
  enabled <- isEnabled ;;
  if enabled then
    lastSyncUserData <- getLastSyncUserData ;;
    remoteUserData <- getRemoteUserData lastSyncUserData ;;
    preview <- generatePreview this remoteUserData lastSyncUserData ;;
    ret (Some preview)
  else ret None.

Definition resetLocal : M W unit :=
  try_catch (del lastSyncResource) (fun _ => ret tt).

(** The method [isLastSyncFromCurrentMachine] (the name without the prime
    is the field of [ISyncPreview]):
    [!!remoteUserData.syncData?.machineId
     && remoteUserData.syncData.machineId === machineId]; the empty string
    is falsy. *)
Definition isLastSyncFromCurrentMachine' (remoteUserData : IRemoteUserData) : M W bool :=
  let machineId := currentMachineId svc in
  ret (match syncData remoteUserData with
       | Some d =>
           match machineId_of d with
           | Some id => negb (String.eqb id "") && String.eqb id machineId
           | None => false
           end
       | None => false
       end).

(** [getMachineId({ uri })]: [if (content)] fails on [null] and on the
    empty string; [undefined] is [None]. *)
Definition getMachineId (uri : URI) : M W (option string) :=
  let r := basename uri in
  if isEqual uri (toRemoteBackupResource r) then
    userData <- getUserData (inl r) ;;
    match ud_content userData with
    | Some content =>
        if String.eqb content "" then ret None
        else
          d <- parseSyncData content ;;
          ret (machineId_of d)
    | None => ret None
    end
  else ret None.
End AbstractSynchroniser.

(** ** Handles of the backups *)

(** [interface IResourceRefHandle { ref: string; created: number }] *)
Record IResourceRefHandle : Type := mkRefHandle { rh_ref : string; rh_created : Z }.

(** [interface ISyncResourceHandle { created: number; uri: URI }] *)
Record ISyncResourceHandle : Type := mkHandle { created_of : Z; uri_of : URI }.

Section Handles.
Context {W : Type}.
Variable svc : Services W.
(** [getAllRefs(resource)] of the remote store and of the backup store. *)
Variable store_getAllRefs : W -> Result (list IResourceRefHandle) * W.
Variable backup_getAllRefs : W -> Result (list IResourceRefHandle) * W.

Definition getRemoteSyncResourceHandles : M W (list ISyncResourceHandle) :=
  handles <- call store_getAllRefs ;;
  ret (map (fun h => mkHandle (rh_created h) (toRemoteBackupResource svc (rh_ref h)))
         handles).

Definition getLocalSyncResourceHandles : M W (list ISyncResourceHandle) :=
  handles <- call backup_getAllRefs ;;
  ret (map (fun h => mkHandle (rh_created h) (toLocalBackupResource svc (rh_ref h)))
         handles).
End Handles.

(** ** [class AbstractFileSynchroniser] *)

Section AbstractFileSynchroniser.
Context {W : Type}.
Variable localPreviewResource : URI.

(** [AbstractFileSynchroniser.stop], given [super.stop]. *)
Definition AbstractFileSynchroniser_stop (super_stop : M W unit) : M W unit :=
  super_stop ;;
  try_catch (del localPreviewResource) (fun _ => ret tt).

(** [this.file] *)
Variable file : URI.

(** [getLocalFileContent] *)
Definition getLocalFileContent : M W (option string) :=
  try_catch (text <- readFile file ;; ret (Some text)) (fun _ => ret None).

(** [IFileContent], the snapshot of a file that carries its version, and
    the two writes of the file service that [updateLocalFileContent]
    calls: [writeFile(file, text, oldContent)], which the service refuses
    with [FILE_MODIFIED_SINCE] or [FILE_NOT_FOUND] when the file is no more
    as the snapshot has it, and [createFile(file, text, { overwrite: false })]. *)
Variable IFileContent : Type.
Variable writeFile_since : URI -> string -> IFileContent -> M W unit.
Variable createFile_new : URI -> string -> M W unit.

Definition updateLocalFileContent (newContent : string) (oldContent : option IFileContent)
  : M W unit :=
  try_catch
    (match oldContent with
     | Some old =>
         (* file exists already *)
         writeFile_since file newContent old
     | None =>
         (* file does not exist *)
         createFile_new file newContent
     end)
    (fun e =>
       match e with
       | FileOperationError FILE_NOT_FOUND
       | FileOperationError FILE_MODIFIED_SINCE =>
           throw (UserDataSyncError LocalPreconditionFailed None)
       | _ => throw e
       end).
End AbstractFileSynchroniser.

(** ** Turns of the event loop

    Whether a caller awaits the promise of an [async] method shows only when
    the turns of the event loop are told apart.  A [Task] is a method cut at
    its suspension points: [Run] is a piece that runs within the current
    turn, [Yield] ends the turn of the task ([await]), and [Fork t k] calls
    the [async] method [t] and drops its promise: [t] runs up to its first
    suspension, then [k] goes on in the same turn, and the rest of [t] runs
    in a later one. *)

Module Turns.
Section Tasks.
Context {W : Type}.

Inductive Task (A : Type) : Type :=
| Done (r : Result A)
| Run (f : State W -> Task A * State W)
| Yield (k : Task A)
| Fork (t : Task unit) (k : Task A).
Arguments Done {A}.
Arguments Run {A}.
Arguments Yield {A}.
Arguments Fork {A}.

(** What follows a task, whatever it came to. *)
Fixpoint andThen {A B} (t : Task A) (k : Result A -> Task B) : Task B :=
  match t with
  | Done r => k r
  | Run f => Run (fun s => let '(t', s') := f s in (andThen t' k, s'))
  | Yield t' => Yield (andThen t' k)
  | Fork u t' => Fork u (andThen t' k)
  end.

(** A piece without suspension. *)
Definition piece {A} (m : M W A) : Task A :=
  Run (fun s => let '(r, s') := m s in (Done r, s')).

(** What follows a task that fulfilled; a rejection is passed on. *)
Definition seq {A B} (t : Task A) (k : A -> Task B) : Task B :=
  andThen t (fun r =>
               match r with
               | Ok a => k a
               | Throw e => Done (Throw e)
               | Diverge => Done Diverge
               end).

(** [await t]: the caller resumes in a later turn than the one in which
    [t] settles. *)
Definition awaiting {A} (t : Task A) : Task A :=
  andThen t (fun r => Yield (Done r)).

(** [try { t } finally { f }] *)
Definition finally {A} (t : Task A) (f : M W unit) : Task A :=
  andThen t (fun r =>
               match r with
               | Diverge => Done Diverge
               | _ => andThen (piece f)
                        (fun r' =>
                           match r' with
                           | Ok _ => Done r
                           | Throw e => Done (Throw e)
                           | Diverge => Done Diverge
                           end)
               end).

(** [try { t } catch (e) { }] *)
Definition ignoring_errors (t : Task unit) : Task unit :=
  andThen t (fun r =>
               match r with
               | Diverge => Done Diverge
               | _ => Done (Ok tt)
               end).

(** One turn of a task: the task that is left, the tasks it forked, and
    the state. *)
Fixpoint turn {A} (t : Task A) (s : State W)
  : Task A * list (Task unit) * State W :=
  match t with
  | Done r => (Done r, [], s)
  | Run f => let '(t', s') := f s in turn t' s'
  | Yield k => (k, [], s)
  | Fork u k =>
      let '(u', forked_u, s1) := turn u s in
      let '(k', forked_k, s2) := turn k s1 in
      (k', (forked_u ++ [u'] ++ forked_k)%list, s2)
  end.

(** The task and the state after [n] turns of the task. *)
Fixpoint after_turns {A} (n : nat) (t : Task A) (s : State W) : Task A * State W :=
  match n with
  | O => (t, s)
  | S n' => let '(t', _, s') := turn t s in after_turns n' t' s'
  end.

Definition settled {A} (t : Task A) : bool :=
  match t with Done _ => true | _ => false end.

(** The event loop: the tasks of the queue take turns, first come first
    served, until none is left ([None]: [fuel] turns were not enough). *)
Fixpoint eventLoop (fuel : nat) (queue : list (Task unit)) (s : State W)
  : option (State W) :=
  match queue with
  | [] => Some s
  | t :: waiting =>
      match fuel with
      | O => None
      | S fuel' =>
          let '(t', forked, s') := turn t s in
          eventLoop fuel' (waiting ++ forked ++ (if settled t' then [] else [t']))%list s'
      end
  end.

Variable js : Builtins.
Variable svc : Services W.
Variable version : Z.
Variable this : Synchroniser W.
(** [this.stop()] as a task. *)
Variable this_stop : Task unit.

(** [pull] *)
Definition pull : Task unit :=
  seq (piece (isEnabled svc)) (fun enabled =>
    if negb enabled then Done (Ok tt)
    else
      seq (awaiting this_stop) (fun _ =>
        finally
          (seq (piece (setStatus svc Syncing)) (fun _ =>
           seq (awaiting (piece (getLastSyncUserData js svc))) (fun lastSyncUserData =>
           seq (awaiting (piece (getRemoteUserData js svc lastSyncUserData)))
             (fun remoteUserData =>
           seq (awaiting (piece (generatePullPreview this remoteUserData
                                   lastSyncUserData))) (fun preview =>
           awaiting (piece (applyPreview this preview false)))))))
          (setStatus svc Idle))).

(** [push]: the promise of [this.stop()] is dropped. *)
Definition push : Task unit :=
  seq (piece (isEnabled svc)) (fun enabled =>
    if negb enabled then Done (Ok tt)
    else
      Fork this_stop
        (finally
           (seq (piece (setStatus svc Syncing)) (fun _ =>
            seq (awaiting (piece (getLastSyncUserData js svc))) (fun lastSyncUserData =>
            seq (awaiting (piece (getRemoteUserData js svc lastSyncUserData)))
              (fun remoteUserData =>
            seq (awaiting (piece (generatePushPreview this remoteUserData
                                    lastSyncUserData))) (fun preview =>
            awaiting (piece (applyPreview this preview true)))))))
           (setStatus svc Idle))).

(** [AbstractSynchroniser.stop] as a task: it has no suspension point. *)
Definition stop_task : Task unit := piece (stop svc).

(** [AbstractFileSynchroniser.stop] as a task:
    [await super.stop(); try { await this.fileService.del(...) } catch (e) { }] *)
Definition file_stop_task (localPreviewResource : URI) : Task unit :=
  seq (awaiting stop_task) (fun _ =>
    ignoring_errors (awaiting (piece (del localPreviewResource)))).
End Tasks.
End Turns.

(** ** A JSON codec

    A printer and a reader of JSON texts over [JsVal] (integers for numbers,
    no white space, the escapes of the quote and of the backslash; of two
    members with the same key the later one counts), with which the engine
    can be run on concrete inputs.  The properties of the engine are stated
    for any [Builtins]. *)

Module Json.
(** The character of code 34, which opens and closes a string literal. *)
Definition double_quote : ascii := ascii_of_nat 34.

(** A string literal: quotes and backslashes are escaped. *)
Fixpoint escape (s : string) : string :=
  match s with
  | EmptyString => ""
  | String c rest =>
      if Ascii.eqb c double_quote then String "\"%char (String c (escape rest))
      else if Ascii.eqb c "\"%char then String "\"%char (String c (escape rest))
      else String c (escape rest)
  end.
Definition quote (s : string) : string :=
  String double_quote (escape s ++ String double_quote "").

Fixpoint join (sep : string) (l : list string) : string :=
  match l with
  | [] => ""
  | [x] => x
  | x :: rest => x ++ sep ++ join sep rest
  end.

Fixpoint stringify (v : JsVal) : string :=
  match v with
  | JUndefined => "null"
  | JNull => "null"
  | JBool true => "true"
  | JBool false => "false"
  | JNum n => pretty n
  | JStr s => quote s
  | JArr l => "[" ++ join "," (map stringify l) ++ "]"
  | JObj m =>
      "{" ++ join "," (map_fold (fun k x acc =>
                                   match x with
                                   | JUndefined => acc
                                   | _ => (quote k ++ ":" ++ stringify x) :: acc
                                   end) [] m) ++ "}"
  end.

Fixpoint read_string (s : string) (acc : string) : option (string * string) :=
  match s with
  | EmptyString => None
  | String c rest =>
      if Ascii.eqb c double_quote then Some (acc, rest)
      else if Ascii.eqb c "\"%char then
        match rest with
        | String c' rest' => read_string rest' (acc ++ String c' "")
        | EmptyString => None
        end
      else read_string rest (acc ++ String c "")
  end.

Definition digit (c : ascii) : option Z :=
  let n := nat_of_ascii c in
  if (48 <=? n)%nat && (n <=? 57)%nat then Some (Z.of_nat (n - 48)) else None.

Fixpoint read_digits (s : string) (acc : Z) : Z * string :=
  match s with
  | String c rest =>
      match digit c with
      | Some d => read_digits rest (10 * acc + d)%Z
      | None => (acc, s)
      end
  | EmptyString => (acc, s)
  end.

Definition starts_with_digit (s : string) : bool :=
  match s with
  | String c _ => bool_decide (is_Some (digit c))
  | EmptyString => false
  end.

Definition strip (prefix s : string) : option string :=
  if String.prefix prefix s
  then Some (String.substring (String.length prefix) (String.length s - String.length prefix) s)
  else None.

Fixpoint read_value (fuel : nat) (s : string) : option (JsVal * string) :=
  match fuel with
  | O => None
  | S fuel' =>
      match s with
      | EmptyString => None
      | String c rest =>
          if Ascii.eqb c "n"%char then r ← strip "ull" rest; Some (JNull, r)
          else if Ascii.eqb c "t"%char then r ← strip "rue" rest; Some (JBool true, r)
          else if Ascii.eqb c "f"%char then r ← strip "alse" rest; Some (JBool false, r)
          else if Ascii.eqb c double_quote then
            '(str, r) ← read_string rest ""; Some (JStr str, r)
          else if Ascii.eqb c "-"%char then
            if starts_with_digit rest
            then let '(n, r) := read_digits rest 0 in Some (JNum (- n), r)
            else None
          else if starts_with_digit s then
            let '(n, r) := read_digits s 0 in Some (JNum n, r)
          else if Ascii.eqb c "["%char then
            match rest with
            | String "]"%char r => Some (JArr [], r)
            | _ => '(l, r) ← read_elements fuel' rest; Some (JArr l, r)
            end
          else if Ascii.eqb c "{"%char then
            match rest with
            | String "}"%char r => Some (JObj ∅, r)
            | _ => '(m, r) ← read_members fuel' rest; Some (JObj m, r)
            end
          else None
      end
  end
with read_elements (fuel : nat) (s : string) : option (list JsVal * string) :=
  match fuel with
  | O => None
  | S fuel' =>
      '(v, r) ← read_value fuel' s;
      match r with
      | String c r' =>
          if Ascii.eqb c ","%char then
            '(l, r'') ← read_elements fuel' r'; Some (v :: l, r'')
          else if Ascii.eqb c "]"%char then Some ([v], r')
          else None
      | EmptyString => None
      end
  end
with read_members (fuel : nat) (s : string) : option (gmap string JsVal * string) :=
  match fuel with
  | O => None
  | S fuel' =>
      match s with
      | String c rest =>
          if Ascii.eqb c double_quote then
            '(k, r) ← read_string rest "";
            match r with
            | String c1 r1 =>
                if Ascii.eqb c1 ":"%char then
                  '(v, r2) ← read_value fuel' r1;
                  match r2 with
                  | String c2 r3 =>
                      if Ascii.eqb c2 ","%char then
                        '(m, r4) ← read_members fuel' r3; Some (m ∪ {[k := v]}, r4)
                      else if Ascii.eqb c2 "}"%char then Some ({[k := v]}, r3)
                      else None
                  | EmptyString => None
                  end
                else None
            | EmptyString => None
            end
          else None
      | EmptyString => None
      end
  end.

Definition parse (s : string) : option JsVal :=
  match read_value (S (String.length s)) s with
  | Some (v, "") => Some v
  | _ => None
  end.

(** [String(v)] *)
Fixpoint toString (v : JsVal) : string :=
  match v with
  | JUndefined => "undefined"
  | JNull => "null"
  | JBool true => "true"
  | JBool false => "false"
  | JNum n => pretty n
  | JStr s => s
  | JArr l =>
      join "," (map (fun x => match x with
                              | JUndefined | JNull => ""
                              | _ => toString x
                              end) l)
  | JObj _ => "[object Object]"
  end.

Definition builtins : Builtins := mkBuiltins stringify parse toString.
End Json.

(** ** The synchroniser of synchronizer.test.ts *)

Module TestSynchroniser.
(** The fields of [TestSynchroniser] (its barrier is open), the
    enablement of its resource, and the server and the backup store of
    the test client. *)
Record World : Type := mkWorld {
  enabled : bool;
  server : option (nat * string);
  backups : list string;
  syncResult_hasConflicts : bool;
  syncResult_hasError : bool;
  cancelled : bool;
  onDoSyncCall : nat
}.

Definition current_ref (w : World) : string :=
  match server w with
  | Some (n, _) => pretty n
  | None => "0"
  end.

(** Modelled from the spec: the remote store of the test client
    (userDataSyncClient.ts is not among the sources).  [read] answers
    [{ref, content | null}], and the record it was given when that is
    still the latest; [write] fails with [PreconditionFailed] if its
    [If-Match] reference is not the current one, and otherwise stores the
    content under the next reference. *)
Definition read (lastSync : option IUserData) (headers : IHeaders) (w : World)
  : Result IUserData * World :=
  match server w, lastSync with
  | Some (n, content), Some old =>
      if strict_eq (ud_ref old) (JStr (pretty n)) then (Ok old, w)
      else (Ok (mkUserData (JStr (pretty n)) (Some content)), w)
  | Some (n, content), None => (Ok (mkUserData (JStr (pretty n)) (Some content)), w)
  | None, _ => (Ok (mkUserData (JStr "0") None), w)
  end.

Definition write (data : string) (ifMatch : JsVal) (headers : IHeaders) (w : World)
  : Result string * World :=
  if truthy ifMatch && negb (strict_eq ifMatch (JStr (current_ref w)))
  then (Throw (UserDataSyncError PreconditionFailed (Some "settings")), w)
  else
    let n := match server w with Some (n, _) => S n | None => 1%nat end in
    (Ok (pretty n),
     mkWorld (enabled w) (Some (n, data)) (backups w) (syncResult_hasConflicts w)
       (syncResult_hasError w) (cancelled w) (onDoSyncCall w)).

Definition resolve (r : string) (w : World) : Result (option string) * World :=
  match server w with
  | Some (n, content) =>
      if String.eqb r (pretty n) then (Ok (Some content), w) else (Ok None, w)
  | None => (Ok None, w)
  end.

(** Modelled from the spec: the local backup store, which keeps the
    envelopes it is given; a backup is named by its position. *)
Definition backup (data : string) (w : World) : Result unit * World :=
  (Ok tt,
   mkWorld (enabled w) (server w) (backups w ++ [data]) (syncResult_hasConflicts w)
     (syncResult_hasError w) (cancelled w) (onDoSyncCall w)).

Definition resolve_backup (r : string) (w : World) : Result (option string) * World :=
  (Ok ((fun found => snd (snd found))
         <$> list_find (fun entry => pretty (fst entry) = r) (imap pair (backups w))),
   w).

Definition services : Services World :=
  {| resource := "settings";
     userDataSyncHome := mkURI "file" "" "/sync";
     currentMachineId := "machine-1";
     isResourceEnabled := enabled;
     store_read := read;
     store_write := write;
     store_resolveContent := resolve;
     backup_backup := backup;
     backup_resolveContent := resolve_backup |}.

(** [protected readonly version: number = 1] *)
Definition version : Z := 1.

Definition set_cancelled (b : bool) (count : nat -> nat) : M World unit :=
  call (fun w => (Ok tt,
                  mkWorld (enabled w) (server w) (backups w) (syncResult_hasConflicts w)
                    (syncResult_hasError w) b (count (onDoSyncCall w)))).

Definition preview_of (w : World) (remoteUserData : IRemoteUserData)
    (lastSyncUserData : option IRemoteUserData) (more : gmap string JsVal)
  : ISyncPreview :=
  mkPreview remoteUserData lastSyncUserData false false (syncResult_hasConflicts w)
    false more.

Definition generatePullPreview (remoteUserData : IRemoteUserData)
    (lastSyncUserData : option IRemoteUserData) : M World ISyncPreview :=
  w <- gets world ;;
  ret (preview_of w remoteUserData lastSyncUserData ∅).

Definition generatePushPreview (remoteUserData : IRemoteUserData)
    (lastSyncUserData : option IRemoteUserData) : M World ISyncPreview :=
  w <- gets world ;;
  ret (preview_of w remoteUserData lastSyncUserData ∅).

Definition generateReplacePreview (d : ISyncData) (remoteUserData : IRemoteUserData)
    (lastSyncUserData : option IRemoteUserData) : M World ISyncPreview :=
  w <- gets world ;;
  ret (preview_of w remoteUserData lastSyncUserData ∅).

Definition generatePreview (remoteUserData : IRemoteUserData)
    (lastSyncUserData : option IRemoteUserData) : M World ISyncPreview :=
  w <- gets world ;;
  if syncResult_hasError w then throw (Error "failed")
  else ret (preview_of w remoteUserData lastSyncUserData
              {["ref" := ref remoteUserData]}).

Definition updatePreviewWithConflict (preview : ISyncPreview) (conflictResource : URI)
    (conflictContent : string) : M World ISyncPreview :=
  ret preview.

(** [apply(ref)] *)
Definition apply (r : JsVal) : M World unit :=
  remoteUserData <- updateRemoteUserData Json.builtins services version "" r ;;
  updateLastSyncUserData Json.builtins services remoteUserData ∅.

Definition applyPreview (preview : ISyncPreview) (forcePush : bool) : M World unit :=
  let r := default JUndefined (more preview !! "ref") in
  if truthy r then apply r else ret tt.

(** [doSync]: the barrier being open, the synchroniser is cancelled only
    if [stop] ran in between, which it does not within one method. *)
Definition doSync (super_doSync : IRemoteUserData -> option IRemoteUserData ->
                                  M World SyncStatus)
    (remoteUserData : IRemoteUserData) (lastSyncUserData : option IRemoteUserData)
  : M World SyncStatus :=
  set_cancelled false S ;;
  w <- gets world ;;
  if cancelled w then ret Idle
  else super_doSync remoteUserData lastSyncUserData.

Definition stop (super_stop : M World unit) : M World unit :=
  set_cancelled true (fun n => n) ;;
  super_stop.

Definition synchroniser : Synchroniser World :=
  mkSynchroniser World generatePullPreview generatePushPreview generateReplacePreview
    generatePreview updatePreviewWithConflict applyPreview doSync stop.

(** A synchroniser as the test creates it. *)
Definition created (w : World) : State World :=
  mkState Idle [] None ∅ ∅ [] w.

(** The test client at set-up: the resource is enabled and the server is
    empty; [syncResult] is as the test sets it. *)
Definition client (hasConflicts hasError : bool) : World :=
  mkWorld true None [] hasConflicts hasError false 0.

(** [client.manifest()] *)
Definition manifest (w : World) : option IUserDataManifest :=
  Some (mkManifest
          (match server w with
           | Some (n, _) => Some {["settings" := pretty n]}
           | None => None
           end) "1").

(** [testObject.sync(await client.manifest())] *)
Definition test_sync (s : State World) : Result unit * State World :=
  sync Json.builtins services version synchroniser 8 (manifest (world s)) ∅ s.

(** The status events of a trace, as the listener of the test collects
    them, and the requests to the server. *)
Definition statuses (t : list Event) : list SyncStatus :=
  omap (fun ev => match ev with DidChangeStatus st => Some st | _ => None end) t.

Definition requests (t : list Event) : list Event :=
  omap (fun ev => match ev with
                  | StoreRead _ _ | StoreWrite _ _ _ | StoreResolveContent _ => Some ev
                  | _ => None
                  end) t.

(** The trace is looked at from here on. *)
Definition listening (s : State World) : State World :=
  mkState (_status s) (_conflicts s) (syncPreviewPromise s) (syncHeaders s) (files s) []
    (world s).

(** After one synchronisation without conflicts: the server and the
    last-sync record are at reference [1]. *)
Definition synced : State World := listening (snd (test_sync (created (client false false)))).

(** After a synchronisation that found conflicts. *)
Definition conflicted : State World :=
  listening (snd (test_sync (created (client true false)))).

(** The remote data at reference [r], written by this machine. *)
Definition remote_at (r : string) (v : Z) : IRemoteUserData :=
  mkRemoteUserData (JStr r) (Some (mkSyncData v (Some "machine-1") "")) ∅.

(** [synced], after another client has written to the server. *)
Definition overtaken : State World :=
  mkState Idle [] None ∅ (files synced) []
    (mkWorld true
     (Some (2%nat, Json.stringify (syncData_object (mkSyncData 1 (Some "machine-2") ""))))
       [] false false false 1).

(** A synchroniser that was disabled while it was synchronising. *)
Definition disabled_while_syncing : State World :=
  mkState Syncing [] None ∅ ∅ [] (mkWorld false None [] false false false 1).

(** A synchroniser in the middle of a synchronisation. *)
Definition syncing : State World :=
  mkState Syncing [] None ∅ ∅ [] (mkWorld true None [] false false false 1).


(** The server holds a text that is not an envelope. *)
Definition with_broken_backup : State World :=
  created (mkWorld true (Some (1%nat, Json.stringify (JObj {["version" := JNum 1]}))) []
           false false false 0).

(** The preview file of a file-backed synchroniser. *)
Definition localPreviewResource : URI := mkURI "file" "" "/sync/settings/preview/settings.json".

Definition with_preview_file : State World :=
  mkState Idle [] None ∅ {[localPreviewResource := "{}"]} [] (client false false).

(** A synchroniser with the abstract methods of [TestSynchroniser] that
    overrides neither [doSync] nor [stop]. *)
Definition without_overrides : Synchroniser World :=
  mkSynchroniser World generatePullPreview generatePushPreview generateReplacePreview
    generatePreview updatePreviewWithConflict applyPreview (fun super => super)
    (fun super => super).

(** A file service whose snapshot of a file is its text: a write since a
    snapshot is refused when the file is gone or has another text, and a
    file is not created over one that exists. *)
Definition writeFile_since (file : URI) (text old : string) : M World unit :=
  fs <- gets files ;;
  match fs !! file with
  | Some current =>
      if String.eqb current old then set_files (<[file := text]> fs)
      else throw (FileOperationError FILE_MODIFIED_SINCE)
  | None => throw (FileOperationError FILE_NOT_FOUND)
  end.

Definition createFile_new (file : URI) (text : string) : M World unit :=
  fs <- gets files ;;
  match fs !! file with
  | Some _ => throw (FileOperationError FILE_MODIFIED_SINCE)
  | None => set_files (<[file := text]> fs)
  end.

(** The settings file, and the backups that the stores list. *)
Definition settings_file : URI := mkURI "file" "" "/user/settings.json".

Definition all_refs (w : World) : Result (list IResourceRefHandle) * World :=
  (Ok (match server w with
       | Some (n, _) => [mkRefHandle (pretty n) 1]
       | None => []
       end), w).
End TestSynchroniser.

(** ** The specification's wording of the recognised envelopes *)

(** An envelope has exactly the keys [{version: number, content: string}]
    or exactly the keys
    [{version: number, machineId: string, content: string}]. *)
Definition envelope_shape (thing : JsVal) : Prop :=
  (exists (v : Z) (c : string),
      thing = JObj (<["version" := JNum v]> {["content" := JStr c]})) \/
  (exists (v : Z) (id c : string),
      thing = JObj (<["version" := JNum v]>
                      (<["machineId" := JStr id]> {["content" := JStr c]}))).

(** The manifest's latest reference for a resource, if it has one. *)
Definition manifest_ref (manifest : option IUserDataManifest) (resource : SyncResource)
  : option string :=
  m ← manifest; refs ← latest m; refs !! resource.


(** A computation that keeps a field of the state as it is. *)
Definition keeps {W A C} (f : State W -> C) (m : M W A) : Prop :=
  forall s, f (snd (m s)) = f s.

(** A computation that leaves the preview future as it is. *)
Abbreviation keeps_preview := (keeps syncPreviewPromise).

(** ** Notions that the further properties are stated with *)

Section Notions.
Context {W : Type}.
Variable js : Builtins.
Variable svc : Services W.


(** The state with the request headers [h]. *)
Definition with_headers (h : IHeaders) (s : State W) : State W :=
  mkState (_status s) (_conflicts s) (syncPreviewPromise s) h (files s) (trace s) (world s).

(** The first steps of [sync] on an enabled and idle engine: the status
    becomes [Syncing], the last-sync record is read and the latest remote
    data fetched. *)
Definition sync_fetch (manifest : option IUserDataManifest)
  : M W (IRemoteUserData * option IRemoteUserData) :=
  setStatus svc Syncing ;;
  lastSyncUserData <- getLastSyncUserData js svc ;;
  remoteUserData <- getLatestRemoteUserData js svc manifest lastSyncUserData ;;
  ret (remoteUserData, lastSyncUserData).
End Notions.

(** A name of a backup that is one path segment. *)
Fixpoint no_slash (r : string) : bool :=
  match r with
  | EmptyString => true
  | String c rest => negb (String.eqb (String c "") "/") && no_slash rest
  end.

(** ** [AbstractFileSynchroniser.getConflictContent] *)

Section ConflictContent.
Context {W : Type}.
Variable localPreviewResource : URI.
Variable remotePreviewResource : URI.
(** [(syncPreview as IFileSyncPreview).fileContent]: the text of the
    snapshot of the file that the preview of a file-backed synchroniser
    carries, if it carries one. *)
Variable fileContent_value : ISyncPreview -> option string.

Definition getConflictContent (conflictResource : URI) : M W (option string) :=
  if isEqual remotePreviewResource conflictResource
     || isEqual localPreviewResource conflictResource
  then
    syncPreview <- getSyncPreviewInProgress ;;
    match syncPreview with
    | Some preview =>
        if isEqual remotePreviewResource conflictResource then
          ret (match syncData (remoteUserData preview) with
               | Some d => Some (content_of d)
               | None => None
               end)
        else if isEqual localPreviewResource conflictResource then
          ret (fileContent_value preview)
        else ret None
    | None => ret None
    end
  else ret None.
End ConflictContent.

(** * Properties *)

Local Open Scope list_scope.

(** ** Finite maps of a known size *)

Lemma map_size_1_lookup (m : gmap string JsVal) (k : string) (x : JsVal) :
  m !! k = Some x -> size m = 1%nat -> m = {[k := x]}.
Proof.
  intros Hk Hsize.
  rewrite <- (insert_delete_id m k x Hk) in Hsize |- *.
  rewrite map_size_insert_None in Hsize by apply lookup_delete_eq.
  assert (delete k m = ∅) as -> by (apply map_size_empty_iff; lia).
  reflexivity.
Qed.

Lemma map_size_S_lookup (m : gmap string JsVal) (k : string) (x : JsVal) (n : nat) :
  m !! k = Some x -> size m = S n ->
  m = <[k := x]> (delete k m) /\ size (delete k m) = n.
Proof.
  intros Hk Hsize. split.
  - symmetry. by apply insert_delete_id.
  - rewrite <- (insert_delete_id m k x Hk) in Hsize.
    rewrite map_size_insert_None in Hsize by apply lookup_delete_eq. lia.
Qed.

(** ** The recognition of envelopes *)

Lemma typeof_number (x : JsVal) :
  String.eqb (typeof x) "number" = true -> exists n, x = JNum n.
Proof. destruct x; simpl; try discriminate. eauto. Qed.

Lemma typeof_string (x : JsVal) :
  String.eqb (typeof x) "string" = true -> exists s, x = JStr s.
Proof. destruct x; simpl; try discriminate. eauto. Qed.

Lemma get_number (m : gmap string JsVal) (k : string) :
  is_defined (get (JObj m) k) && String.eqb (typeof (get (JObj m) k)) "number" = true ->
  exists n, m !! k = Some (JNum n).
Proof.
  intros [_ H]%andb_prop. apply typeof_number in H as [n H].
  exists n. simpl in H. destruct (m !! k); simpl in H; congruence.
Qed.

Lemma get_string (m : gmap string JsVal) (k : string) :
  is_defined (get (JObj m) k) && String.eqb (typeof (get (JObj m) k)) "string" = true ->
  exists s, m !! k = Some (JStr s).
Proof.
  intros [_ H]%andb_prop. apply typeof_string in H as [n H].
  exists n. simpl in H. destruct (m !! k); simpl in H; congruence.
Qed.

Lemma isSyncData_object (thing : JsVal) :
  isSyncData thing = true -> exists m, thing = JObj m.
Proof.
  destruct thing; try (unfold isSyncData; simpl; rewrite ?andb_false_r; discriminate).
  eauto.
Qed.

Lemma isSyncData_shape (thing : JsVal) :
  isSyncData thing = true <-> envelope_shape thing.
Proof.
  split.
  - intros H. destruct (isSyncData_object _ H) as [m ->].
    unfold isSyncData in H.
    destruct (truthy (JObj m) && _ && _) eqn:Hguard; [|discriminate].
    apply andb_prop in Hguard as [[_ Hv]%andb_prop Hc].
    apply get_number in Hv as [v Hv]. apply get_string in Hc as [c Hc].
    simpl keys_length in H.
    destruct (Nat.eqb (size m) 2) eqn:H2.
    + left. exists v, c. f_equal.
      apply Nat.eqb_eq in H2.
      destruct (map_size_S_lookup m "version" (JNum v) 1 Hv H2) as [Hm H1].
      rewrite Hm. f_equal. apply map_size_1_lookup; [|done].
      by rewrite lookup_delete_ne.
    + right.
      destruct (Nat.eqb (size m) 3 && _) eqn:H3; [|discriminate].
      apply andb_prop in H3 as [H3 Hid]. apply Nat.eqb_eq in H3.
      apply get_string in Hid as [id Hid].
      exists v, id, c. f_equal.
      destruct (map_size_S_lookup m "version" (JNum v) 2 Hv H3) as [Hm H2'].
      rewrite Hm. f_equal.
      assert (delete "version" m !! "machineId" = Some (JStr id)) as Hid'
        by by rewrite lookup_delete_ne.
      destruct (map_size_S_lookup _ "machineId" (JStr id) 1 Hid' H2') as [Hm' H1].
      rewrite Hm'. f_equal. apply map_size_1_lookup; [|done].
      by rewrite !lookup_delete_ne.
  - intros [(v & c & ->) | (v & id & c & ->)]; unfold isSyncData; simpl.
    + rewrite lookup_insert_eq, lookup_insert_ne, lookup_singleton_eq by done. simpl.
      rewrite map_size_insert_None, map_size_singleton
        by by rewrite lookup_singleton_ne.
      reflexivity.
    + rewrite lookup_insert_eq, !lookup_insert_ne, lookup_singleton_eq by done. simpl.
      rewrite lookup_insert_eq. simpl.
      rewrite !map_size_insert_None, map_size_singleton;
        [reflexivity | by rewrite lookup_singleton_ne
         | by rewrite lookup_insert_ne, ?lookup_singleton_ne].
Qed.

Lemma as_ISyncData_object (thing : JsVal) :
  isSyncData thing = true -> syncData_object (as_ISyncData thing) = thing.
Proof.
  intros [(v & c & ->) | (v & id & c & ->)]%isSyncData_shape;
    unfold as_ISyncData, syncData_object; simpl.
  - repeat (rewrite lookup_insert_eq || rewrite lookup_insert_ne by done
            || rewrite lookup_singleton_eq || rewrite lookup_singleton_ne by done).
    simpl. by rewrite insert_empty.
  - repeat (rewrite lookup_insert_eq || rewrite lookup_insert_ne by done
            || rewrite lookup_singleton_eq || rewrite lookup_singleton_ne by done).
    simpl. rewrite insert_empty. by rewrite (insert_insert_ne _ "machineId" "version").
Qed.

Lemma syncData_object_isSyncData (d : ISyncData) :
  isSyncData (syncData_object d) = true.
Proof.
  apply isSyncData_shape. destruct d as [v [id|] c]; unfold syncData_object; simpl.
  - right. exists v, id, c. rewrite insert_empty.
    by rewrite (insert_insert_ne _ "machineId" "version").
  - left. exists v, c. by rewrite insert_empty.
Qed.

Section Envelopes.
Context {W : Type}.
Variable js : Builtins.
Variable svc : Services W.

(** C4.  A value is recognised as an envelope exactly when it has exactly
    the keys [version] (a number) and [content] (a string), or exactly
    those and [machineId] (a string).  [parseSyncData] returns the parsed
    value on a text that parses to a recognised value, and throws an
    [Incompatible] error on every other text. *)
Theorem envelope_recognition (content : string) (s : State W) :
  (forall thing : JsVal, isSyncData thing = true <-> envelope_shape thing) /\
  ((exists thing, JSON_parse js content = Some thing /\ envelope_shape thing /\
                  parseSyncData js svc content s = (Ok (as_ISyncData thing), s) /\
                  syncData_object (as_ISyncData thing) = thing) \/
   ((forall thing, JSON_parse js content = Some thing ->
                   ~ envelope_shape thing /\ isSyncData thing = false) /\
    fst (parseSyncData js svc content s)
    = Throw (UserDataSyncError Incompatible (Some (resource svc))))).
Proof.
  split; [apply isSyncData_shape|].
  unfold parseSyncData.
  destruct (JSON_parse js content) as [thing|] eqn:Hparse.
  - destruct (isSyncData thing) eqn:Hthing.
    + left. exists thing. split_and!; [done | by apply isSyncData_shape | done |].
      by apply as_ISyncData_object.
    + right. split; [|done].
      intros ? [= <-]. split; [|done].
      rewrite <- isSyncData_shape. congruence.
  - right. split; [discriminate | done].
Qed.
End Envelopes.

(** ** The retry loop of [performSync] *)

Section RetryLoop.
Context {W : Type}.
Variable js : Builtins.
Variable svc : Services W.
Variable version : Z.
Variable this : Synchroniser W.

(** The first thing [getRemoteUserData] does is to ask the remote store,
    with the last-sync record it is given. *)
Lemma getRemoteUserData_asks_the_store (lastSyncData : option IRemoteUserData)
    (s : State W) :
  exists later,
    trace (snd (getRemoteUserData js svc lastSyncData s))
    = trace s ++ StoreRead (userData_of js <$> lastSyncData) (syncHeaders s) :: later.
Proof.
  unfold getRemoteUserData, getUserData, bind, gets, emit, modify, call, ret. simpl.
  destruct (store_read svc _ _ _) as [[userData|e|] w]; simpl; [|by exists []..].
  destruct (ud_content userData) as [content|]; simpl; [|by exists []].
  unfold parseSyncData, bind, emit, modify, throw, ret.
  destruct (JSON_parse js content) as [thing|]; simpl.
  - destruct (isSyncData thing); by exists [].
  - exists [LogError SyntaxError]. by rewrite <- app_assoc.
Qed.

(** C5.  When the remote envelope is of a later version than the
    synchroniser's, [performSync] (at any depth of recursion left) throws
    an [Incompatible] error; all it does before is to log
    [sync/incompatible]: [doSync] is not called, and nothing is retried. *)
Theorem performSync_incompatible (fuel : nat) (remoteUserData : IRemoteUserData)
    (lastSyncUserData : option IRemoteUserData) (d : ISyncData) (s : State W) :
  syncData remoteUserData = Some d ->
  (version_of d > version)%Z ->
  performSync js svc version this (S fuel) remoteUserData lastSyncUserData s
  = (Throw (UserDataSyncError Incompatible (Some (resource svc))),
     observed (PublicLog "sync/incompatible" (resource svc)) s).
Proof.
  intros Hd Hnewer. simpl. unfold newer_than_this. rewrite Hd.
  destruct (Z.gtb_spec (version_of d) version) as [_|]; [|lia].
  reflexivity.
Qed.

(** C1.  When [doSync] throws, [performSync] goes on as follows.  On
    [PreconditionFailed] it fetches the remote data anew with [null] for
    the last-sync record, reads the last-sync record again and calls
    itself with both; on [LocalPreconditionFailed] it calls itself with
    the arguments it had; any other error it throws again. *)
Theorem performSync_retries (fuel : nat) (remoteUserData : IRemoteUserData)
    (lastSyncUserData : option IRemoteUserData) (e : JsError) (s s1 : State W) :
  newer_than_this version remoteUserData = false ->
  this_doSync this remoteUserData lastSyncUserData s = (Throw e, s1) ->
  performSync js svc version this (S fuel) remoteUserData lastSyncUserData s
  = match e with
    | UserDataSyncError PreconditionFailed _ =>
        (remoteUserData' <- getRemoteUserData js svc None ;;
         lastSyncUserData' <- getLastSyncUserData js svc ;;
         performSync js svc version this fuel remoteUserData' lastSyncUserData') s1
    | UserDataSyncError LocalPreconditionFailed _ =>
        performSync js svc version this fuel remoteUserData lastSyncUserData s1
    | _ => (Throw e, s1)
    end
  /\ exists later,
      trace (snd (getRemoteUserData js svc None s1))
      = trace s1 ++ StoreRead None (syncHeaders s1) :: later.
Proof.
  intros Hversion HdoSync. split; [|apply getRemoteUserData_asks_the_store].
  simpl. rewrite Hversion. unfold try_catch. rewrite HdoSync.
  destruct e as [[| | |name] source| | | | |]; reflexivity.
Qed.
End RetryLoop.

(** ** The latest remote data *)

Section LatestRemote.
Context {W : Type}.
Variable js : Builtins.
Variable svc : Services W.

Lemma latestRef_of_manifest_ref (manifest : option IUserDataManifest) :
  latestRef_of svc manifest
  = match manifest_ref manifest (resource svc) with
    | Some r => JStr r
    | None => JUndefined
    end.
Proof.
  unfold latestRef_of, manifest_ref.
  destruct manifest as [[[refs|] ?]|]; simpl; [|done..].
  by destruct (refs !! resource svc).
Qed.

Lemma strict_eq_JStr (r r' : string) : strict_eq (JStr r) (JStr r') = true <-> r = r'.
Proof. simpl. apply String.eqb_eq. Qed.

End LatestRemote.

(** ** Envelopes that are written *)

Section WrittenEnvelopes.
Context {W : Type}.
Variable js : Builtins.
Variable svc : Services W.
Variable version : Z.

(** C10.  [updateRemoteUserData] makes one request to the remote store: a
    write of the text of [{version, machineId, content}], with the id of
    the current machine.  [backupLocal] gives the backup store the text of
    [{version, content}], an object without the key [machineId]. *)
Theorem written_envelopes (content : string) (r : JsVal) (s : State W) :
  let remote_envelope :=
    JObj (<["machineId" := JStr (currentMachineId svc)]>
            (<["version" := JNum version]> (<["content" := JStr content]> ∅))) in
  let backup_envelope :=
    JObj (<["version" := JNum version]> (<["content" := JStr content]> ∅)) in
  (trace (snd (updateRemoteUserData js svc version content r s))
   = trace s ++ [StoreWrite (JSON_stringify js remote_envelope) r (syncHeaders s)] /\
   world (snd (updateRemoteUserData js svc version content r s))
   = snd (store_write svc (JSON_stringify js remote_envelope) r (syncHeaders s) (world s)) /\
   get remote_envelope "machineId" = JStr (currentMachineId svc) /\
   keys_length remote_envelope = 3%nat /\
   isSyncData remote_envelope = true) /\
  (trace (snd (backupLocal js svc version content s))
   = trace s ++ [BackupStoreBackup (JSON_stringify js backup_envelope)] /\
   world (snd (backupLocal js svc version content s))
   = snd (backup_backup svc (JSON_stringify js backup_envelope) (world s)) /\
   get backup_envelope "machineId" = JUndefined /\
   keys_length backup_envelope = 2%nat /\
   isSyncData backup_envelope = true).
Proof.
  intros remote_envelope backup_envelope. split.
  - unfold updateRemoteUserData, bind, gets, emit, modify, call, ret. simpl.
    split_and!.
    + by destruct (store_write svc _ _ _ _) as [[?|?|] ?].
    + by destruct (store_write svc _ _ _ _) as [[?|?|] ?].
    + by rewrite lookup_insert_eq.
    + by rewrite !map_size_insert_None, map_size_empty.
    + apply (syncData_object_isSyncData
               (mkSyncData version (Some (currentMachineId svc)) content)).
  - unfold backupLocal, bind, gets, emit, modify, call, ret. simpl.
    split_and!.
    + by destruct (backup_backup svc _ _) as [[?|?|] ?].
    + by destruct (backup_backup svc _ _) as [[?|?|] ?].
    + by rewrite !lookup_insert_ne, lookup_empty.
    + by rewrite !map_size_insert_None, map_size_empty.
    + apply (syncData_object_isSyncData (mkSyncData version None content)).
Qed.
End WrittenEnvelopes.

(** ** What leaves the preview future as it is *)

Create HintDb frame.

Ltac unfold_monad :=
  unfold bind, ret, throw, gets, modify, emit, call, set_status, set_conflicts,
    set_syncPreviewPromise, with_preview, set_syncHeaders, set_files, observed in *;
  simpl in *.

Section FrameOfTheMonad.
Context {W : Type}.

Lemma keeps_bind {A B C} (f : State W -> C) (m : M W A) (k : A -> M W B) :
  keeps f m -> (forall a, keeps f (k a)) -> keeps f (bind m k).
Proof.
  intros Hm Hk s. unfold bind. specialize (Hm s).
  destruct (m s) as [[a|e|] s']; simpl in *; [|done..].
  by rewrite Hk.
Qed.

Lemma keeps_try_catch {A C} (f : State W -> C) (m : M W A) (h : JsError -> M W A) :
  keeps f m -> (forall e, keeps f (h e)) -> keeps f (try_catch m h).
Proof.
  intros Hm Hh s. unfold try_catch. specialize (Hm s).
  destruct (m s) as [[a|e|] s']; simpl in *; [done| |done].
  by rewrite Hh.
Qed.

Lemma keeps_try_finally {A C} (f : State W -> C) (m : M W A)
    (g : Result A -> M W unit) :
  keeps f m -> (forall r, keeps f (g r)) -> keeps f (try_finally m g).
Proof.
  intros Hm Hg s. unfold try_finally. specialize (Hm s).
  destruct (m s) as [[a|e|] s']; simpl in *; [| |done].
  - specialize (Hg (Ok a) s').
    by destruct (g (Ok a) s') as [[?|?|] ?]; simpl in *; rewrite Hg.
  - specialize (Hg (Throw e) s').
    by destruct (g (Throw e) s') as [[?|?|] ?]; simpl in *; rewrite Hg.
Qed.

Lemma keeps_call {A C} (f : State W -> C) (g : W -> Result A * W) :
  (forall s w,
      f (mkState (_status s) (_conflicts s) (syncPreviewPromise s) (syncHeaders s)
           (files s) (trace s) w) = f s) ->
  keeps f (call g).
Proof. intros Hf s. unfold call. destruct (g (world s)). apply Hf. Qed.
End FrameOfTheMonad.

(** [frame] proves that a computation keeps a field of the state, from what
    its parts do. *)
Ltac frame :=
  repeat first
    [ apply keeps_bind; [|intros ?]
    | apply keeps_try_catch; [|intros ?]
    | apply keeps_try_finally; [|intros ?]
    | apply keeps_call; intros ? ?; reflexivity
    | solve [unfold keeps; intros ?; reflexivity]
    | progress auto with frame
    | match goal with
      | |- keeps _ (match ?x with _ => _ end) => destruct x
      | |- keeps _ (if ?x then _ else _) => destruct x
      end ].

Section Frame.
Context {W : Type}.
Variable js : Builtins.
Variable svc : Services W.
Variable version : Z.

Lemma keeps_preview_setConflicts (cs : list Conflict) :
  keeps (W:=W) syncPreviewPromise (setConflicts cs).
Proof. unfold setConflicts. frame. Qed.

Lemma keeps_files_setConflicts (cs : list Conflict) :
  keeps (W:=W) files (setConflicts cs).
Proof. unfold setConflicts. frame. Qed.
Hint Resolve keeps_preview_setConflicts keeps_files_setConflicts : frame.

Lemma keeps_preview_setStatus (st : SyncStatus) : keeps_preview (setStatus svc st).
Proof. unfold setStatus. frame. Qed.

Lemma keeps_files_setStatus (st : SyncStatus) : keeps files (setStatus svc st).
Proof. unfold setStatus. frame. Qed.
Hint Resolve keeps_preview_setStatus keeps_files_setStatus : frame.

Lemma keeps_files_stop : keeps files (stop svc).
Proof. unfold stop. frame. Qed.

Lemma keeps_readFile {C} (f : State W -> C) (file : URI) : keeps f (readFile file).
Proof. unfold readFile. frame. Qed.

Lemma keeps_preview_writeFile (file : URI) (text : string) :
  keeps (W:=W) syncPreviewPromise (writeFile file text).
Proof. unfold writeFile. frame. Qed.

Lemma keeps_preview_del (file : URI) : keeps (W:=W) syncPreviewPromise (del file).
Proof. unfold del. frame. Qed.

Lemma keeps_preview_parseSyncData (content : string) :
  keeps_preview (parseSyncData js svc content).
Proof. unfold parseSyncData. frame. Qed.

Lemma keeps_preview_getUserData (x : string + option IRemoteUserData) :
  keeps_preview (getUserData js svc x).
Proof. unfold getUserData. frame. Qed.
Hint Resolve keeps_readFile keeps_preview_writeFile keeps_preview_parseSyncData
  keeps_preview_getUserData : frame.

Lemma keeps_preview_getRemoteUserData (lastSyncData : option IRemoteUserData) :
  keeps_preview (getRemoteUserData js svc lastSyncData).
Proof. unfold getRemoteUserData. frame. Qed.

Lemma keeps_JSON_parse_value {C} (f : State W -> C) (value : JsVal) :
  keeps f (JSON_parse_value js value).
Proof. unfold JSON_parse_value. frame. Qed.
Hint Resolve keeps_preview_getRemoteUserData keeps_JSON_parse_value : frame.

Lemma keeps_preview_getLastSyncUserData : keeps_preview (getLastSyncUserData js svc).
Proof. unfold getLastSyncUserData. frame. Qed.

Lemma keeps_files_getLastSyncUserData : keeps files (getLastSyncUserData js svc).
Proof. unfold getLastSyncUserData. frame. Qed.

Lemma keeps_status_getLastSyncUserData : keeps _status (getLastSyncUserData js svc).
Proof. unfold getLastSyncUserData. frame. Qed.

Lemma keeps_preview_getLatestRemoteUserData (manifest : option IUserDataManifest)
    (lastSyncUserData : option IRemoteUserData) :
  keeps_preview (getLatestRemoteUserData js svc manifest lastSyncUserData).
Proof. unfold getLatestRemoteUserData. frame. Qed.

Lemma keeps_preview_updateRemoteUserData (content : string) (r : JsVal) :
  keeps_preview (updateRemoteUserData js svc version content r).
Proof. unfold updateRemoteUserData. frame. Qed.

Lemma keeps_preview_updateLastSyncUserData (lastSync : IRemoteUserData)
    (additionalProps : gmap string JsVal) :
  keeps_preview (updateLastSyncUserData js svc lastSync additionalProps).
Proof. unfold updateLastSyncUserData. frame. Qed.

Lemma keeps_preview_backupLocal (content : string) :
  keeps_preview (backupLocal js svc version content).
Proof. unfold backupLocal. frame. Qed.

Lemma keeps_preview_resolveContent (uri : URI) :
  keeps_preview (resolveContent js svc uri).
Proof. unfold resolveContent. frame. Qed.
End Frame.

#[global] Hint Resolve keeps_preview_setConflicts keeps_preview_setStatus
  keeps_files_setConflicts keeps_files_setStatus keeps_files_stop
  keeps_readFile keeps_preview_writeFile keeps_preview_del
  keeps_preview_parseSyncData keeps_preview_getUserData keeps_preview_getRemoteUserData
  keeps_JSON_parse_value keeps_preview_getLastSyncUserData
  keeps_files_getLastSyncUserData keeps_status_getLastSyncUserData
  keeps_preview_getLatestRemoteUserData keeps_preview_updateRemoteUserData
  keeps_preview_updateLastSyncUserData keeps_preview_backupLocal
  keeps_preview_resolveContent : frame.

(** ** The preview future *)

Section PreviewFuture.
Context {W : Type}.
Variable js : Builtins.
Variable svc : Services W.
Variable version : Z.
Variable this : Synchroniser W.

Lemma setStatus_returns (st : SyncStatus) (s : State W) :
  fst (setStatus svc st s) = Ok tt.
Proof.
  unfold setStatus, setConflicts. unfold_monad.
  repeat (case_bool_decide; simpl); try done;
    repeat (destruct (_ && _); simpl); done.
Qed.

(** What [AbstractSynchroniser.doSync] leaves of the preview future. *)
Lemma doSync_preview (remoteUserData : IRemoteUserData)
    (lastSyncUserData : option IRemoteUserData) (s : State W) :
  match doSync this remoteUserData lastSyncUserData s with
  | (Ok HasConflicts, s') =>
      exists preview,
        syncPreviewPromise s' = Some (Fulfilled preview) /\ hasConflicts preview = true
  | (Ok _, s') =>
      syncPreviewPromise s' = None /\
      exists preview before after,
        hasConflicts preview = false /\
        applyPreview this preview false before = (Ok tt, after) /\
        s' = with_preview None after
  | (Throw _, s') => syncPreviewPromise s' = None
  | (Diverge, _) => True
  end.
Proof.
  unfold doSync, try_catch, settle, await. unfold_monad.
  destruct (syncPreviewPromise s) as [[preview|e]|] eqn:Hpromise; simpl.
  - destruct (hasConflicts preview) eqn:Hconflicts; [eauto|].
    destruct (applyPreview this preview false s) as [[[]|e|] s'] eqn:Happly; simpl;
      [|done..].
    split; [done|]. by exists preview, s, s'.
  - done.
  - destruct (generatePreview this remoteUserData lastSyncUserData s)
      as [[preview|e|] s0]; simpl; [|done..].
    destruct (hasConflicts preview) eqn:Hconflicts; [eauto|].
    match goal with
    | |- context [applyPreview this preview false ?before] =>
        destruct (applyPreview this preview false before) as [[[]|e|] s'] eqn:Happly
    end; simpl; [|done..].
    split; [done|]. by eexists preview, _, s'.
Qed.

Lemma stop_preview (s : State W) : syncPreviewPromise (snd (stop svc s)) = None.
Proof.
  unfold stop. unfold_monad.
  destruct (syncPreviewPromise s) eqn:Hpromise; simpl;
    by rewrite keeps_preview_setStatus.
Qed.



End PreviewFuture.

Section PreviewLifecycle.
Context {W : Type}.
Variable js : Builtins.
Variable svc : Services W.
Variable version : Z.
Variable this : Synchroniser W.


(** C2, amended.  If the resource is enabled and the status is [Syncing]
    or [HasConflicts], [sync] returns and leaves the status, the
    conflicts, the preview future, the files, the trace (so that no event
    is fired and no request made) and the collaborators as they are; the
    headers of the engine are reset. *)
Theorem sync_refuses_reentry (fuel : nat) (manifest : option IUserDataManifest)
    (headers : IHeaders) (s : State W) :
  isResourceEnabled svc (world s) = true ->
  _status s = Syncing \/ _status s = HasConflicts ->
  sync js svc version this fuel manifest headers s
  = (Ok tt,
     mkState (_status s) (_conflicts s) (syncPreviewPromise s) ∅ (files s) (trace s)
       (world s)).
Proof.
  intros Henabled Hstatus. unfold sync, try_finally, isEnabled. unfold_monad.
  rewrite Henabled. simpl.
  destruct Hstatus as [-> | ->]; reflexivity.
Qed.
End PreviewLifecycle.

(** ** [replace] on content that is not an envelope *)

Section Replace.
Context {W : Type}.
Variable js : Builtins.
Variable svc : Services W.
Variable version : Z.
Variable this : Synchroniser W.

(** X2.  [replace] returns [false] when the content of the handle does not
    resolve ([null] or the empty text), whatever the state. *)
Lemma replace_unresolved_content (uri : URI) (s s1 : State W) :
  resolveContent js svc uri s = (Ok None, s1) \/
  resolveContent js svc uri s = (Ok (Some ""), s1) ->
  replace js svc this uri s = (Ok false, s1).
Proof. intros [H | H]; unfold replace, bind; by rewrite H. Qed.

(** C7.  When the content of the handle resolves but is not the text of
    an envelope, [replace] does not return [false]: it throws the
    [Incompatible] error of [parseSyncData], before it stops or changes
    the status; all it may have done since the content resolved is to log
    the syntax error. *)
Theorem replace_unrecognised_content (uri : URI) (content : string) (s s1 : State W) :
  resolveContent js svc uri s = (Ok (Some content), s1) ->
  content <> "" ->
  (forall thing, JSON_parse js content = Some thing -> isSyncData thing = false) ->
  fst (replace js svc this uri s)
  = Throw (UserDataSyncError Incompatible (Some (resource svc))) /\
  (snd (replace js svc this uri s) = s1 \/
   snd (replace js svc this uri s) = observed (LogError SyntaxError) s1).
Proof.
  intros Hresolve Hcontent Hparse.
  apply String.eqb_neq in Hcontent.
  assert (replace js svc this uri s
          = (d <- parseSyncData js svc content ;;
             this_stop svc this ;;
             try_finally
               (setStatus svc Syncing ;;
                lastSyncUserData <- getLastSyncUserData js svc ;;
                remoteUserData <- getLatestRemoteUserData js svc None lastSyncUserData ;;
                preview <- generateReplacePreview this d remoteUserData
                             lastSyncUserData ;;
                applyPreview this preview false)
               (fun _ => setStatus svc Idle) ;;
             ret true) s1) as ->.
  { unfold replace, bind at 1. by rewrite Hresolve, Hcontent. }
  unfold bind at 1. unfold parseSyncData.
  destruct (JSON_parse js content) as [thing|] eqn:Hthing.
  - rewrite (Hparse thing eq_refl). simpl. auto.
  - unfold_monad. auto.
Qed.
End Replace.

(** ** The last-sync record *)

Lemma as_ISyncData_syncData_object (d : ISyncData) :
  as_ISyncData (syncData_object d) = d.
Proof.
  destruct d as [v [id|] c]; unfold as_ISyncData, syncData_object; simpl;
    repeat (rewrite lookup_insert_eq || rewrite lookup_insert_ne by done
            || rewrite lookup_empty);
    reflexivity.
Qed.

Section LastSync.
Context {W : Type}.
Variable js : Builtins.
Variable svc : Services W.

Lemma updateLastSyncUserData_writes (lastSync : IRemoteUserData)
    (additionalProps : gmap string JsVal) (s : State W) :
  updateLastSyncUserData js svc lastSync additionalProps s
  = (Ok tt,
     mkState (_status s) (_conflicts s) (syncPreviewPromise s) (syncHeaders s)
       (<[lastSyncResource svc :=
            JSON_stringify js (lastSync_record js lastSync additionalProps)]> (files s))
       (trace s) (world s)).
Proof. reflexivity. Qed.

(** C9.  After [updateLastSyncUserData] has written a record whose
    envelope is [null], together with additional properties,
    [getLastSyncUserData] answers the reference and the [null] envelope
    alone: the additional properties are lost.  (The text that was
    written is taken to be read back as the object that was written.) *)
Theorem lastSync_null_envelope_loses_additional_properties
    (lastSync : IRemoteUserData) (additionalProps : gmap string JsVal) (s : State W) :
  syncData lastSync = None ->
  additionalProps !! "ref" = None ->
  additionalProps !! "content" = None ->
  JSON_parse js (JSON_stringify js (lastSync_record js lastSync additionalProps))
  = Some (lastSync_record js lastSync additionalProps) ->
  let s1 := snd (updateLastSyncUserData js svc lastSync additionalProps s) in
  getLastSyncUserData js svc s1
  = (Ok (Some (mkRemoteUserData (ref lastSync) None ∅)), s1).
Proof.
  intros Hnull Href Hcontent Hroundtrip s1. subst s1.
  rewrite updateLastSyncUserData_writes. simpl.
  unfold getLastSyncUserData, try_catch, readFile, JSON_parse_value. unfold_monad.
  rewrite lookup_insert_eq. simpl. rewrite Hroundtrip. simpl.
  unfold lastSync_record. rewrite Hnull. simpl.
  rewrite !lookup_union_r by done.
  rewrite lookup_insert_ne, lookup_insert_eq by done. simpl.
  by rewrite lookup_insert_eq.
Qed.

(** X1.  When the envelope is not [null], [getLastSyncUserData] answers the
    additional properties with which [updateLastSyncUserData] wrote the
    record, as they were written, beside [content: undefined].  (The texts
    that were written are taken to be read back as the objects that were
    written; the additional properties are none of [ref], [content] and
    [syncData].) *)
Theorem lastSync_envelope_keeps_additional_properties
    (lastSync : IRemoteUserData) (d : ISyncData) (additionalProps : gmap string JsVal)
    (s : State W) :
  syncData lastSync = Some d ->
  additionalProps !! "ref" = None ->
  additionalProps !! "content" = None ->
  additionalProps !! "syncData" = None ->
  JSON_parse js (JSON_stringify js (syncData_object d)) = Some (syncData_object d) ->
  JSON_parse js (JSON_stringify js (lastSync_record js lastSync additionalProps))
  = Some (lastSync_record js lastSync additionalProps) ->
  let s1 := snd (updateLastSyncUserData js svc lastSync additionalProps s) in
  getLastSyncUserData js svc s1
  = (Ok (Some (mkRemoteUserData (ref lastSync) (Some d)
                 (<["content" := JUndefined]> additionalProps))), s1).
Proof.
  intros Hd Href Hcontent HsyncData Henvelope Hroundtrip s1. subst s1.
  rewrite updateLastSyncUserData_writes. simpl.
  unfold getLastSyncUserData, try_catch, readFile, JSON_parse_value. unfold_monad.
  rewrite lookup_insert_eq. simpl. rewrite Hroundtrip. simpl.
  unfold lastSync_record. rewrite Hd. simpl.
  rewrite !lookup_union_r by done.
  rewrite lookup_insert_ne, lookup_insert_eq by done. simpl.
  rewrite Henvelope. simpl. rewrite syncData_object_isSyncData. simpl.
  rewrite as_ISyncData_syncData_object.
  do 3 f_equal. unfold lastSync_of. simpl.
  rewrite !lookup_union_r by done. rewrite lookup_insert_eq. simpl. f_equal.
  apply map_eq. intros k.
  destruct (decide (k = "ref")) as [->|Hk1].
  { by rewrite lookup_delete_eq, lookup_insert_ne. }
  rewrite lookup_delete_ne by done.
  destruct (decide (k = "syncData")) as [->|Hk2].
  { by rewrite lookup_delete_eq, lookup_insert_ne. }
  rewrite lookup_delete_ne by done.
  destruct (decide (k = "content")) as [->|Hk3].
  { by rewrite !lookup_insert_eq. }
  rewrite !lookup_insert_ne by done.
  rewrite lookup_union_l; [done|].
  by rewrite !lookup_insert_ne, lookup_empty.
Qed.
End LastSync.

(** ** [push] and [pull], turn by turn *)

Section PushAndPull.
Context {W : Type}.
Variable js : Builtins.
Variable svc : Services W.
Variable this : Synchroniser W.

Lemma setStatus_status (status : SyncStatus) (s : State W) :
  setStatus svc status s = (Ok tt, snd (setStatus svc status s)) /\
  _status (snd (setStatus svc status s)) = status.
Proof.
  unfold setStatus, setConflicts. unfold_monad.
  repeat (case_bool_decide; simpl); try done;
    repeat (destruct (_ && _); simpl); try done;
    repeat (case_bool_decide; simpl); done.
Qed.

Lemma stop_returns (s : State W) :
  stop svc s = (Ok tt, snd (stop svc s)) /\ _status (snd (stop svc s)) = Idle.
Proof.
  unfold stop. unfold_monad.
  destruct (syncPreviewPromise s); simpl; apply setStatus_status.
Qed.

Lemma del_existing (file : URI) (text : string) (s : State W) :
  files s !! file = Some text ->
  files (snd (del file s)) !! file = None /\
  _status (snd (del file s)) = _status s /\
  trace (snd (del file s)) = trace s ++ [FileDeleted file].
Proof.
  intros Hfile. unfold del. unfold_monad. rewrite Hfile. simpl.
  by rewrite lookup_delete_eq.
Qed.

(** C8.  With the [stop] of the file-backed synchroniser, and its preview
    file in place: in the first turn of [push], the status becomes
    [Syncing] while the rest of [stop], which deletes the preview file, is
    still to run; [push] does not wait for [stop].  [pull] does: its
    status is still [Idle] after the turn in which the file is deleted,
    and becomes [Syncing] only later. *)
Theorem push_does_not_await_stop (localPreviewResource : URI) (text : string)
    (s : State W) :
  isResourceEnabled svc (world s) = true ->
  files s !! localPreviewResource = Some text ->
  (let '(_, forked, s1) :=
     Turns.turn (Turns.push js svc this (Turns.file_stop_task svc localPreviewResource)) s in
   _status s1 = Syncing /\
   files s1 !! localPreviewResource = Some text /\
   exists rest_of_stop,
     forked = [rest_of_stop] /\
     files (snd (Turns.after_turns 1 rest_of_stop s1)) !! localPreviewResource = None) /\
  (let pull := Turns.pull js svc this (Turns.file_stop_task svc localPreviewResource) in
   _status (snd (Turns.after_turns 1 pull s)) = Idle /\
   files (snd (Turns.after_turns 1 pull s)) !! localPreviewResource = Some text /\
   _status (snd (Turns.after_turns 2 pull s)) = Idle /\
   files (snd (Turns.after_turns 2 pull s)) !! localPreviewResource = None /\
   _status (snd (Turns.after_turns 3 pull s)) = Idle /\
   _status (snd (Turns.after_turns 4 pull s)) = Syncing).
Proof.
  intros Henabled Hfile.
  destruct (stop_returns s) as [Hstop Hidle].
  pose proof (keeps_files_stop svc s) as Hfiles_stop.
  split.
  - unfold Turns.push, Turns.file_stop_task, Turns.stop_task, Turns.seq,
      Turns.awaiting, Turns.finally, Turns.piece, isEnabled.
    unfold_monad. rewrite Henabled. simpl. rewrite Hstop. simpl.
    destruct (setStatus_status Syncing (snd (stop svc s))) as [Hset Hsyncing].
    rewrite Hset. simpl.
    destruct (getLastSyncUserData js svc _) as [r s1] eqn:Hlast.
    assert (s1 = snd (getLastSyncUserData js svc (snd (setStatus svc Syncing (snd (stop svc s))))))
      as Hs1 by by rewrite Hlast.
    assert (_status s1 = Syncing) as Hstatus1
      by (by rewrite Hs1, keeps_status_getLastSyncUserData).
    assert (files s1 !! localPreviewResource = Some text) as Hfile1.
    { by rewrite Hs1, keeps_files_getLastSyncUserData, keeps_files_setStatus,
        Hfiles_stop. }
    destruct r as [lastSync|e|]; simpl.
    all: split_and!; [done | done |].
    all: eexists; split; [reflexivity|]; simpl.
    all: destruct (del_existing localPreviewResource text s1 Hfile1) as [Hgone _].
    all: destruct (del localPreviewResource s1) as [[[]|?|] ?]; by simpl in *.
  - cbv zeta.
    unfold Turns.pull, Turns.file_stop_task, Turns.stop_task, Turns.seq,
      Turns.awaiting, Turns.finally, Turns.ignoring_errors, Turns.piece, isEnabled.
    unfold_monad. rewrite Henabled. simpl. rewrite Hstop. simpl.
    rewrite Hidle, Hfiles_stop.
    destruct (del_existing localPreviewResource text (snd (stop svc s)))
      as (Hgone & Hstatus & _); [by rewrite Hfiles_stop|].
    unfold del in *. unfold_monad. rewrite Hfiles_stop, Hfile in *. simpl in *.
    rewrite lookup_delete_eq.
    match goal with
    | |- context [setStatus svc Syncing ?s0] =>
        destruct (setStatus_status Syncing s0) as [Hset Hsyncing]; rewrite Hset
    end.
    simpl.
    match goal with
    | |- context [getLastSyncUserData js svc ?s0] =>
        pose proof (keeps_status_getLastSyncUserData js svc s0) as Hkeep;
        destruct (getLastSyncUserData js svc s0) as [r s4]
    end.
    simpl in Hkeep.
    destruct r; simpl; split_and!; try done; congruence.
Qed.
End PushAndPull.

(** * Further properties of the engine *)

(** ** The status machine *)

Section StatusMachine.
Context {W : Type}.
Variable svc : Services W.

(** X3.  [setStatus] with the status that the engine has leaves the whole
    state as it is and fires nothing.  With another status it fires, in
    this order: the status event, once; [sync/conflictsDetected] on
    entering [HasConflicts]; [sync/conflictsResolved] on going from
    [HasConflicts] to [Idle] (not to [Syncing]); and, unless the new status
    is [HasConflicts], the conflicts event with the empty list if there
    were conflicts. *)
Theorem setStatus_events (status : SyncStatus) (s : State W) :
  (_status s = status -> setStatus svc status s = (Ok tt, s)) /\
  (_status s <> status ->
   fst (setStatus svc status s) = Ok tt /\
   _status (snd (setStatus svc status s)) = status /\
   trace (snd (setStatus svc status s))
   = trace s
     ++ [DidChangeStatus status]
     ++ (if bool_decide (status = HasConflicts)
         then [PublicLog "sync/conflictsDetected" (resource svc)] else [])
     ++ (if bool_decide (_status s = HasConflicts) && bool_decide (status = Idle)
         then [PublicLog "sync/conflictsResolved" (resource svc)] else [])
     ++ (if bool_decide (status <> HasConflicts) && negb (bool_decide (_conflicts s = []))
         then [DidChangeConflicts []] else [])).
Proof.
  split.
  - intros <-. unfold setStatus. unfold_monad.
    rewrite bool_decide_false by (intros H; by apply H). by destruct s.
  - intros Hchange. unfold setStatus, setConflicts. unfold_monad.
    rewrite bool_decide_true by done. simpl.
    destruct s as [old conflicts promise headers fs tr w]. simpl in *.
    destruct old, status; try done; simpl;
      destruct conflicts; simpl; rewrite <- ?app_assoc; done.
Qed.

End StatusMachine.

(** ** Reading and forgetting the last-sync record *)

Section LastSyncRecord.
Context {W : Type}.
Variable js : Builtins.
Variable svc : Services W.

Lemma getLastSyncUserData_without_file (s : State W) :
  files s !! lastSyncResource svc = None -> getLastSyncUserData js svc s = (Ok None, s).
Proof.
  intros Hfile. unfold getLastSyncUserData, try_catch, readFile. unfold_monad.
  by rewrite Hfile.
Qed.

(** X5.  [getLastSyncUserData] never throws: it answers a record or
    [null].  All it changes is the trace, by at most one logged error.
    Without a last-sync file it answers [null] and logs nothing. *)
Theorem getLastSyncUserData_never_throws (s : State W) :
  (exists r, fst (getLastSyncUserData js svc s) = Ok r) /\
  (snd (getLastSyncUserData js svc s) = s \/
   exists e, snd (getLastSyncUserData js svc s) = observed (LogError e) s) /\
  (files s !! lastSyncResource svc = None -> getLastSyncUserData js svc s = (Ok None, s)).
Proof.
  destruct (files s !! lastSyncResource svc) as [text|] eqn:Hfile;
    [|rewrite (getLastSyncUserData_without_file s Hfile); split_and!; eauto].
  unfold getLastSyncUserData, try_catch, readFile, JSON_parse_value. unfold_monad.
  rewrite Hfile. simpl.
  assert (forall A (x : A), Some x = None -> False) as Hno by discriminate.
  destruct (JSON_parse js text) as [parsed|]; simpl;
    [|split_and!; [eauto | right; eauto | intros H; by destruct (Hno _ _ H)]].
  destruct (getprop parsed "content") as [content|]; simpl;
    [|split_and!; [eauto | right; eauto | intros H; by destruct (Hno _ _ H)]].
  destruct content; simpl;
    try (destruct (JSON_parse js _) as [thing|]; simpl;
         [destruct (isSyncData thing); simpl|]);
    (split_and!; [eauto | (by left) || (right; eauto)
                 | intros H; by destruct (Hno _ _ H)]).
Qed.

(** X6.  A last-sync file that cannot be used counts as no record.  When
    its text does not parse, or parses to [null], or its [content] does not
    parse, the error is logged; when its [content] parses to a value that is
    not an envelope, nothing is logged. *)
Theorem getLastSyncUserData_unusable_record (text : string) (s : State W) :
  files s !! lastSyncResource svc = Some text ->
  (JSON_parse js text = None ->
   getLastSyncUserData js svc s = (Ok None, observed (LogError SyntaxError) s)) /\
  (JSON_parse js text = Some JNull ->
   getLastSyncUserData js svc s = (Ok None, observed (LogError TypeError) s)) /\
  (forall parsed c,
      JSON_parse js text = Some parsed ->
      getprop parsed "content" = Some (JStr c) ->
      JSON_parse js c = None ->
      getLastSyncUserData js svc s = (Ok None, observed (LogError SyntaxError) s)) /\
  (forall parsed c thing,
      JSON_parse js text = Some parsed ->
      getprop parsed "content" = Some (JStr c) ->
      JSON_parse js c = Some thing ->
      isSyncData thing = false ->
      getLastSyncUserData js svc s = (Ok None, s)).
Proof.
  intros Hfile.
  unfold getLastSyncUserData, try_catch, readFile, JSON_parse_value. unfold_monad.
  rewrite Hfile. simpl. split_and!.
  - by intros ->.
  - by intros ->.
  - intros parsed c -> -> Hc. simpl. by rewrite Hc.
  - intros parsed c thing -> -> Hc Hthing. simpl. by rewrite Hc, Hthing.
Qed.

(** X7.  [resetLocal] never throws, whether the last-sync file exists or
    not.  Afterwards there is no last-sync record: [getLastSyncUserData]
    answers [null] and logs nothing, and [hasPreviouslySynced] is false.
    No other file is touched, nor the status, the conflicts or the preview
    future. *)
Theorem resetLocal_forgets (s : State W) :
  let s' := snd (resetLocal svc s) in
  fst (resetLocal svc s) = Ok tt /\
  getLastSyncUserData js svc s' = (Ok None, s') /\
  hasPreviouslySynced js svc s' = (Ok false, s') /\
  (forall f, f <> lastSyncResource svc -> files s' !! f = files s !! f) /\
  _status s' = _status s /\ _conflicts s' = _conflicts s /\
  syncPreviewPromise s' = syncPreviewPromise s.
Proof.
  intros s'.
  assert (files s' !! lastSyncResource svc = None) as Hgone.
  { subst s'. unfold resetLocal, try_catch, del. unfold_monad.
    destruct (files s !! lastSyncResource svc) eqn:Hfile; simpl; [|done].
    apply lookup_delete_eq. }
  assert (getLastSyncUserData js svc s' = (Ok None, s')) as Hnone
    by by apply getLastSyncUserData_without_file.
  split_and!; try done.
  - unfold resetLocal, try_catch, del. unfold_monad.
    by destruct (files s !! lastSyncResource svc).
  - unfold hasPreviouslySynced, bind. rewrite Hnone. reflexivity.
  - intros f Hf. subst s'. unfold resetLocal, try_catch, del. unfold_monad.
    destruct (files s !! lastSyncResource svc); simpl; [|done].
    by rewrite lookup_delete_ne.
  - subst s'. unfold resetLocal, try_catch, del. unfold_monad.
    by destruct (files s !! lastSyncResource svc).
  - subst s'. unfold resetLocal, try_catch, del. unfold_monad.
    by destruct (files s !! lastSyncResource svc).
  - subst s'. unfold resetLocal, try_catch, del. unfold_monad.
    by destruct (files s !! lastSyncResource svc).
Qed.
End LastSyncRecord.

(** ** What [sync] leaves behind *)

Section SyncOutcome.
Context {W : Type}.
Variable js : Builtins.
Variable svc : Services W.
Variable version : Z.
Variable this : Synchroniser W.

Lemma keeps_status_getRemoteUserData (lastSyncData : option IRemoteUserData) :
  keeps _status (getRemoteUserData js svc lastSyncData).
Proof. unfold getRemoteUserData, getUserData, parseSyncData. frame. Qed.

Lemma keeps_status_getLatestRemoteUserData (manifest : option IUserDataManifest)
    (lastSyncData : option IRemoteUserData) :
  keeps _status (getLatestRemoteUserData js svc manifest lastSyncData).
Proof.
  unfold getLatestRemoteUserData, getRemoteUserData, getUserData, parseSyncData. frame.
Qed.

Lemma sync_fetch_status (manifest : option IUserDataManifest) (s : State W) :
  fst (sync_fetch js svc manifest s) <> Diverge ->
  _status (snd (sync_fetch js svc manifest s)) = Syncing.
Proof.
  unfold sync_fetch, bind.
  destruct (setStatus_status svc Syncing s) as [Hset Hsyncing].
  rewrite Hset. simpl.
  pose proof (keeps_status_getLastSyncUserData js svc (snd (setStatus svc Syncing s)))
    as Hlast.
  destruct (getLastSyncUserData js svc _) as [[last|e|] s1]; simpl in *;
    [|congruence..].
  pose proof (keeps_status_getLatestRemoteUserData manifest last s1) as Hremote.
  destruct (getLatestRemoteUserData js svc manifest last s1) as [[remote|e|] s2];
    simpl in *; congruence.
Qed.

Lemma try_finally_ext {A} (m m' : M W A) (f : Result A -> M W unit) (s s' : State W) :
  m s = m' s' -> try_finally m f s = try_finally m' f s'.
Proof. intros H. unfold try_finally. now rewrite H. Qed.

Lemma sync_unfold (fuel : nat) (manifest : option IUserDataManifest)
    (headers : IHeaders) (s : State W) :
  isResourceEnabled svc (world s) = true ->
  _status s = Idle ->
  sync js svc version this fuel manifest headers s
  = try_finally
      (fetched <- sync_fetch js svc manifest ;;
       try_finally (performSync js svc version this fuel (fst fetched) (snd fetched))
         (fun r => setStatus svc (match r with Ok status => status | _ => Idle end)) ;;
       ret tt)
      (fun _ => set_syncHeaders ∅) (with_headers headers s).
Proof.
  intros Henabled Hidle. unfold sync. apply try_finally_ext.
  unfold sync_fetch, with_headers, bind, set_syncHeaders, modify, isEnabled, gets, ret.
  simpl. rewrite Henabled, Hidle. simpl.
  destruct (setStatus svc Syncing _) as [[[]|e|] s1]; simpl; try reflexivity.
  destruct (getLastSyncUserData js svc s1) as [[last|e|] s2]; simpl; try reflexivity.
  destruct (getLatestRemoteUserData js svc manifest last s2) as [[remote|e|] s3];
    simpl; reflexivity.
Qed.
(** X8.  [sync] fetches the latest remote data after it has set the status
    to [Syncing] and before the [try] whose [finally] sets the final
    status: when the fetch fails, [sync] rejects with that error and the
    status stays [Syncing].  As long as the resource is enabled, every
    later [sync] then returns at once and changes nothing. *)
Theorem sync_stays_Syncing_when_fetch_fails (fuel : nat)
    (manifest : option IUserDataManifest) (headers : IHeaders)
    (last : option IRemoteUserData) (e : JsError) (s s1 : State W) :
  isResourceEnabled svc (world s) = true ->
  _status s = Idle ->
  getLastSyncUserData js svc (snd (setStatus svc Syncing (with_headers headers s)))
  = (Ok last, s1) ->
  fst (getLatestRemoteUserData js svc manifest last s1) = Throw e ->
  let s' := snd (sync js svc version this fuel manifest headers s) in
  fst (sync js svc version this fuel manifest headers s) = Throw e /\
  _status s' = Syncing /\
  (isResourceEnabled svc (world s') = true ->
   forall fuel' manifest' headers',
     sync js svc version this fuel' manifest' headers' s' = (Ok tt, s')).
Proof.
  intros Henabled Hidle Hlast Hremote s'.
  assert (sync js svc version this fuel manifest headers s
          = (Throw e,
             with_headers ∅ (snd (getLatestRemoteUserData js svc manifest last s1))))
    as Hsync.
  { rewrite sync_unfold by done.
    unfold try_finally, sync_fetch, bind.
    destruct (setStatus_status svc Syncing (with_headers headers s)) as [Hset _].
    rewrite Hset. simpl. rewrite Hlast.
    destruct (getLatestRemoteUserData js svc manifest last s1) as [[remote|e'|] s2];
      simpl in *; [done| |done].
    by inversion Hremote. }
  assert (_status s' = Syncing) as Hsyncing.
  { subst s'. rewrite Hsync. simpl.
    rewrite keeps_status_getLatestRemoteUserData.
    pose proof (keeps_status_getLastSyncUserData js svc
                  (snd (setStatus svc Syncing (with_headers headers s)))) as Hkept.
    rewrite Hlast in Hkept. simpl in Hkept. rewrite Hkept.
    by destruct (setStatus_status svc Syncing (with_headers headers s)). }
  split_and!.
  - by rewrite Hsync.
  - done.
  - intros Hstill fuel' manifest' headers'.
    assert (syncHeaders s' = ∅) as Hheaders by (subst s'; by rewrite Hsync).
    unfold sync, try_finally, isEnabled. unfold_monad.
    rewrite Hstill, Hsyncing. simpl.
    destruct s'. simpl in *. by subst.
Qed.

(** [AbstractSynchroniser.doSync] returns [HasConflicts] or [Idle]. *)
Lemma doSync_status (remote : IRemoteUserData) (lastSync : option IRemoteUserData)
    (s : State W) :
  fst (doSync this remote lastSync s) <> Ok Syncing.
Proof.
  unfold doSync, try_catch, settle, await. unfold_monad.
  destruct (syncPreviewPromise s) as [[preview|e]|]; simpl.
  - destruct (hasConflicts preview); [done|].
    by destruct (applyPreview this preview false s) as [[[]|e|] s'].
  - done.
  - destruct (generatePreview this remote lastSync s) as [[preview|e|] s0]; simpl;
      [|done..].
    destruct (hasConflicts preview); [done|].
    match goal with
    | |- context [applyPreview this preview false ?before] =>
        by destruct (applyPreview this preview false before) as [[[]|e|] s']
    end.
Qed.

(** What [performSync] comes to when [doSync] is not overridden. *)
Lemma performSync_outcome (fuel : nat) :
  (forall remote lastSync s, this_doSync this remote lastSync s = doSync this remote lastSync s) ->
  forall (remote : IRemoteUserData) (lastSync : option IRemoteUserData) (s : State W),
  match performSync js svc version this fuel remote lastSync s with
  | (Ok HasConflicts, s') =>
      exists preview,
        syncPreviewPromise s' = Some (Fulfilled preview) /\ hasConflicts preview = true
  | (Ok Idle, s') => syncPreviewPromise s' = None
  | (Ok Syncing, _) => False
  | (Throw _, s') =>
      syncPreviewPromise s' = None \/ syncPreviewPromise s' = syncPreviewPromise s
  | (Diverge, _) => True
  end.
Proof.
  intros Hbase. induction fuel as [|fuel IH]; intros remote lastSync s; simpl; [done|].
  destruct (newer_than_this version remote); [unfold_monad; by right|].
  unfold try_catch. rewrite Hbase.
  pose proof (doSync_preview this remote lastSync s) as Hpreview.
  pose proof (doSync_status remote lastSync s) as Hstatus.
  destruct (doSync this remote lastSync s) as [[[]|e|] s0]; simpl in *;
    try done; try tauto.
  assert (forall r l s2, syncPreviewPromise s2 = None ->
            match performSync js svc version this fuel r l s2 with
            | (Ok HasConflicts, s') =>
                exists preview,
                  syncPreviewPromise s' = Some (Fulfilled preview) /\
                  hasConflicts preview = true
            | (Ok Idle, s') => syncPreviewPromise s' = None
            | (Ok Syncing, _) => False
            | (Throw _, s') =>
                syncPreviewPromise s' = None \/
                syncPreviewPromise s' = syncPreviewPromise s
            | (Diverge, _) => True
            end) as IH'.
  { intros r l s2 Hnone. specialize (IH r l s2).
    destruct (performSync js svc version this fuel r l s2) as [[[]|e'|] s'];
      try done.
    left. destruct IH as [IH | IH]; congruence. }
  destruct e as [[] source| | | | |]; try (by left).
  - unfold bind.
    pose proof (keeps_preview_getRemoteUserData js svc None s0) as Hremote.
    destruct (getRemoteUserData js svc None s0) as [[remote'|e'|] s1]; simpl in *;
      [|left; congruence|done].
    pose proof (keeps_preview_getLastSyncUserData js svc s1) as Hlast.
    destruct (getLastSyncUserData js svc s1) as [[last'|e'|] s2]; simpl in *;
      [|left; congruence|done].
    apply IH'. congruence.
  - by apply IH'.
Qed.

(** X9.  When [doSync] is not overridden, a [sync] of an enabled and idle
    engine that returns leaves the status [Idle] and no preview future, or
    the status [HasConflicts] and the future of a preview that has
    conflicts; never the status [Syncing].  When it rejects, the status is
    [Idle] or [Syncing].  In both cases the headers are reset. *)
Theorem sync_outcome (fuel : nat) (manifest : option IUserDataManifest)
    (headers : IHeaders) (s : State W) :
  (forall remote lastSync s0,
      this_doSync this remote lastSync s0 = doSync this remote lastSync s0) ->
  isResourceEnabled svc (world s) = true ->
  _status s = Idle ->
  match sync js svc version this fuel manifest headers s with
  | (Ok _, s') =>
      syncHeaders s' = ∅ /\
      (_status s' = Idle /\ syncPreviewPromise s' = None \/
       _status s' = HasConflicts /\
       exists preview,
         syncPreviewPromise s' = Some (Fulfilled preview) /\ hasConflicts preview = true)
  | (Throw _, s') => syncHeaders s' = ∅ /\ (_status s' = Idle \/ _status s' = Syncing)
  | (Diverge, _) => True
  end.
Proof.
  intros Hbase Henabled Hidle. rewrite sync_unfold by done.
  unfold try_finally at 1. unfold bind at 1.
  pose proof (sync_fetch_status manifest (with_headers headers s)) as Hfetch.
  destruct (sync_fetch js svc manifest (with_headers headers s)) as [[[remote last]|e|] s1];
    simpl in *; [| |done].
  - clear Hfetch. unfold try_finally, bind.
    pose proof (performSync_outcome fuel Hbase remote last s1) as Hperform.
    destruct (performSync js svc version this fuel remote last s1) as [[status|e|] s2];
      [| |done].
    + destruct (setStatus_status svc status s2) as [Hset Hstatus].
      pose proof (keeps_preview_setStatus svc status s2) as Hkept.
      rewrite Hset. simpl. split; [done|].
      rewrite Hkept, Hstatus.
      destruct status; [tauto|done|tauto].
    + destruct (setStatus_status svc Idle s2) as [Hset Hstatus].
      rewrite Hset. simpl. split; [done|]. by left.
  - split; [done|]. right. by apply Hfetch.
Qed.

End SyncOutcome.

(** ** A preview that is in progress *)

Section PreviewInProgress.
Context {W : Type}.
Variable js : Builtins.
Variable svc : Services W.
Variable version : Z.
Variable this : Synchroniser W.

(** X10.  While a preview future is in progress, [doSync] generates no
    preview and does not look at its arguments.  A preview with conflicts
    is answered with [HasConflicts] and nothing changes; one without is
    applied and the future reset; the reason of a rejected future is thrown
    and the future reset. *)
Theorem doSync_uses_the_preview_in_progress (promise : CancelablePromise)
    (remote remote' : IRemoteUserData) (lastSync lastSync' : option IRemoteUserData)
    (s : State W) :
  syncPreviewPromise s = Some promise ->
  doSync this remote lastSync s = doSync this remote' lastSync' s /\
  match promise with
  | Fulfilled preview =>
      if hasConflicts preview then doSync this remote lastSync s = (Ok HasConflicts, s)
      else doSync this remote lastSync s
           = match applyPreview this preview false s with
             | (Ok _, s') => (Ok Idle, with_preview None s')
             | (Throw e, s') => (Throw e, with_preview None s')
             | (Diverge, s') => (Diverge, s')
             end
  | Rejected e => doSync this remote lastSync s = (Throw e, with_preview None s)
  end.
Proof.
  intros Hpromise. unfold doSync, try_catch, settle, await. unfold_monad.
  rewrite Hpromise. split; [done|].
  destruct promise as [preview|e]; simpl; [|done].
  destruct (hasConflicts preview); [done|].
  by destruct (applyPreview this preview false s) as [[[]|e|] s'].
Qed.

(** X11.  [acceptConflict] does nothing without a preview in progress and
    with one that has no conflicts.  When the updated preview still has
    conflicts, it becomes the preview in progress and nothing is applied.
    When [updatePreviewWithConflict] rejects, [acceptConflict] rejects with
    its error and the rejected future stays in place. *)
Theorem acceptConflict_without_resolution (conflictUri : URI) (conflictContent : string)
    (s : State W) :
  (syncPreviewPromise s = None ->
   acceptConflict svc this conflictUri conflictContent s = (Ok tt, s)) /\
  (forall preview,
      syncPreviewPromise s = Some (Fulfilled preview) ->
      hasConflicts preview = false ->
      acceptConflict svc this conflictUri conflictContent s = (Ok tt, s)) /\
  (forall preview preview' s1,
      syncPreviewPromise s = Some (Fulfilled preview) ->
      hasConflicts preview = true ->
      updatePreviewWithConflict this preview conflictUri conflictContent s
      = (Ok preview', s1) ->
      hasConflicts preview' = true ->
      acceptConflict svc this conflictUri conflictContent s
      = (Ok tt, with_preview (Some (Fulfilled preview')) s1)) /\
  (forall preview e s1,
      syncPreviewPromise s = Some (Fulfilled preview) ->
      hasConflicts preview = true ->
      updatePreviewWithConflict this preview conflictUri conflictContent s
      = (Throw e, s1) ->
      acceptConflict svc this conflictUri conflictContent s
      = (Throw e, with_preview (Some (Rejected e)) s1)).
Proof.
  unfold acceptConflict, getSyncPreviewInProgress, settle, await. unfold_monad.
  split_and!.
  - by intros ->.
  - by intros preview -> ->.
  - intros preview preview' s1 -> -> Hupdate Hstill. simpl.
    rewrite Hupdate. simpl. by rewrite Hstill.
  - intros preview e s1 -> -> Hupdate. simpl. by rewrite Hupdate.
Qed.

(** X12.  An engine with conflicts whose preview future is rejected stays
    as it is: [acceptConflict], [getSyncPreviewInProgress] and
    [doTriggerLocalChange] reject with the reason of the future and change
    nothing, and [sync], if the resource is enabled, returns without
    doing anything but resetting the headers. *)
Theorem rejected_preview_stays (fuel : nat) (e : JsError) (conflictUri : URI)
    (conflictContent : string) (manifest : option IUserDataManifest)
    (headers : IHeaders) (s : State W) :
  _status s = HasConflicts ->
  syncPreviewPromise s = Some (Rejected e) ->
  acceptConflict svc this conflictUri conflictContent s = (Throw e, s) /\
  getSyncPreviewInProgress s = (Throw e, s) /\
  doTriggerLocalChange js svc version this fuel s = (Throw e, s) /\
  (isResourceEnabled svc (world s) = true ->
   sync js svc version this fuel manifest headers s = (Ok tt, with_headers ∅ s)).
Proof.
  intros Hstatus Hpromise. split_and!.
  - unfold acceptConflict, getSyncPreviewInProgress, await. unfold_monad.
    by rewrite Hpromise.
  - unfold getSyncPreviewInProgress, await. unfold_monad. by rewrite Hpromise.
  - unfold doTriggerLocalChange, await. unfold_monad.
    rewrite Hstatus. simpl. by rewrite Hpromise.
  - intros Henabled. unfold sync, try_finally, isEnabled. unfold_monad.
    rewrite Henabled. simpl. rewrite Hstatus. simpl.
    unfold with_headers. by rewrite Hstatus.
Qed.

(** X13.  When the resource is disabled, the engine asks nobody:
    [generateSyncPreview] answers [null], [pull] and [push] settle in
    their first turn without calling [stop], and [sync] of an idle engine
    returns; none of them changes the state, but for the headers that
    [sync] resets. *)
Theorem disabled_engine_is_silent (fuel : nat) (manifest : option IUserDataManifest)
    (headers : IHeaders) (stopping : Turns.Task unit) (s : State W) :
  isResourceEnabled svc (world s) = false ->
  generateSyncPreview js svc this s = (Ok None, s) /\
  Turns.turn (Turns.pull js svc this stopping) s = (@Turns.Done W unit (Ok tt), [], s) /\
  Turns.turn (Turns.push js svc this stopping) s = (@Turns.Done W unit (Ok tt), [], s) /\
  (_status s = Idle ->
   sync js svc version this fuel manifest headers s = (Ok tt, with_headers ∅ s)).
Proof.
  intros Hdisabled. split_and!.
  - unfold generateSyncPreview, isEnabled. unfold_monad. by rewrite Hdisabled.
  - unfold Turns.pull, Turns.seq, Turns.piece, isEnabled. unfold_monad.
    by rewrite Hdisabled.
  - unfold Turns.push, Turns.seq, Turns.piece, isEnabled. unfold_monad.
    by rewrite Hdisabled.
  - intros Hidle. unfold sync, try_finally, isEnabled. unfold_monad.
    rewrite Hdisabled. simpl. rewrite Hidle. simpl.
    unfold with_headers. by rewrite Hidle.
Qed.
End PreviewInProgress.

(** ** The machine of an envelope *)

Section Machine.
Context {W : Type}.
Variable js : Builtins.
Variable svc : Services W.
Variable version : Z.

(** X14.  [isLastSyncFromCurrentMachine] reads nothing but its argument:
    it holds exactly when the envelope names the current machine and the
    id of the current machine is not the empty string.  So what
    [updateRemoteUserData] answers is from the current machine unless the
    id of the machine is empty, and remote data without an envelope is
    from no machine. *)
Theorem isLastSyncFromCurrentMachine_spec (remoteUserData : IRemoteUserData)
    (s : State W) :
  (exists b,
      isLastSyncFromCurrentMachine' svc remoteUserData s = (Ok b, s) /\
      (b = true <->
       currentMachineId svc <> "" /\
       exists d, syncData remoteUserData = Some d /\
                 machineId_of d = Some (currentMachineId svc))) /\
  (forall content r written s1,
      updateRemoteUserData js svc version content r s = (Ok written, s1) ->
      isLastSyncFromCurrentMachine' svc written s1
      = (Ok (negb (String.eqb (currentMachineId svc) "")), s1)) /\
  (syncData remoteUserData = None ->
   isLastSyncFromCurrentMachine' svc remoteUserData s = (Ok false, s)).
Proof.
  split_and!.
  - unfold isLastSyncFromCurrentMachine', ret. eexists. split; [reflexivity|].
    destruct (syncData remoteUserData) as [d|].
    + destruct (machineId_of d) as [id|] eqn:Hid.
      * destruct (String.eqb_spec id "") as [-> | Hnonempty]; simpl.
        -- split; [done|]. intros [Hmachine (d' & [= <-] & Hd')].
           rewrite Hid in Hd'. congruence.
        -- destruct (String.eqb_spec id (currentMachineId svc)) as [-> | Hother].
           ++ split; [|done]. intros _. split; [done|]. by exists d.
           ++ split; [done|]. intros [_ (d' & [= <-] & Hd')].
              rewrite Hid in Hd'. congruence.
      * split; [done|]. intros [_ (d' & [= <-] & Hd')]. congruence.
    + split; [done|]. by intros [_ (d' & Hd' & _)].
  - intros content r written s1. unfold updateRemoteUserData. unfold_monad.
    destruct (store_write svc _ _ _ _) as [[r'|e|] w]; simpl; [|done..].
    intros [= <- <-]. unfold isLastSyncFromCurrentMachine', ret. simpl.
    by rewrite String.eqb_refl, andb_true_r.
  - intros Hnone. unfold isLastSyncFromCurrentMachine', ret. by rewrite Hnone.
Qed.
End Machine.

(** ** The backups and their names *)

Lemma string_app_cons (c : ascii) (a b : string) :
  (String c a ++ b)%string = String c (a ++ b)%string.
Proof. reflexivity. Qed.

Lemma string_app_nil_r (a : string) : (a ++ "")%string = a.
Proof.
  induction a as [|c a IH]; [done|]. by rewrite string_app_cons, IH.
Qed.

Lemma string_app_assoc (a b c : string) :
  ((a ++ b) ++ c)%string = (a ++ (b ++ c))%string.
Proof.
  induction a as [|x a IH]; [done|]. by rewrite !string_app_cons, IH.
Qed.

Lemma last_segment_no_slash (r : string) :
  no_slash r = true -> forall acc, last_segment r acc = (acc ++ r)%string.
Proof.
  induction r as [|c r IH]; simpl; intros Hr acc.
  - by rewrite string_app_nil_r.
  - apply andb_true_iff in Hr as [Hc Hr].
    apply negb_true_iff in Hc. rewrite Hc, (IH Hr).
    by rewrite string_app_assoc.
Qed.

Lemma last_segment_app (p r : string) :
  no_slash r = true -> forall acc, last_segment (p ++ "/" ++ r)%string acc = r.
Proof.
  intros Hr. induction p as [|c p IH]; intros acc.
  - change (last_segment r "" = r). by rewrite (last_segment_no_slash r Hr).
  - rewrite string_app_cons. simpl.
    destruct (Ascii.eqb c "/"); apply IH.
Qed.

Section Backups.
Context {W : Type}.
Variable js : Builtins.
Variable svc : Services W.
Variable version : Z.

Lemma basename_backup (r : string) :
  no_slash r = true ->
  basename (toRemoteBackupResource svc r) = r /\
  basename (toLocalBackupResource svc r) = r.
Proof.
  intros Hr. unfold basename, toRemoteBackupResource, toLocalBackupResource. simpl.
  split; rewrite string_app_cons; simpl; by apply last_segment_app.
Qed.

Lemma resolveContent_remote (r : string) (s : State W) :
  no_slash r = true ->
  resolveContent js svc (toRemoteBackupResource svc r) s
  = (fst (store_resolveContent svc r (world s)),
     mkState (_status s) (_conflicts s) (syncPreviewPromise s) (syncHeaders s) (files s)
       (trace s ++ [StoreResolveContent r]) (snd (store_resolveContent svc r (world s)))).
Proof.
  intros Hr. unfold resolveContent.
  destruct (basename_backup r Hr) as [-> _].
  unfold isEqual. rewrite bool_decide_true by done.
  unfold getUserData. unfold_monad.
  by destruct (store_resolveContent svc r (world s)) as [[content|e|] w].
Qed.

Lemma resolveContent_local (r : string) (s : State W) :
  no_slash r = true ->
  resolveContent js svc (toLocalBackupResource svc r) s
  = (fst (backup_resolveContent svc r (world s)),
     mkState (_status s) (_conflicts s) (syncPreviewPromise s) (syncHeaders s) (files s)
       (trace s ++ [BackupStoreResolveContent r])
       (snd (backup_resolveContent svc r (world s)))).
Proof.
  intros Hr. unfold resolveContent.
  destruct (basename_backup r Hr) as [_ ->].
  unfold isEqual. rewrite bool_decide_false by done. rewrite bool_decide_true by done.
  unfold_monad.
  by destruct (backup_resolveContent svc r (world s)) as [[content|e|] w].
Qed.

(** X15.  A backup is addressed by its name: for a name that is one path
    segment, [basename] recovers the name from the resource of the remote
    and of the local backup; [resolveContent] asks the remote store for a
    remote backup and the backup store for a local one, once, by that name,
    and answers what the store answers.  A resource of neither authority is
    answered with [null] and nobody is asked; [getMachineId] asks nobody
    for a local backup. *)
Theorem backups_are_addressed_by_name (r : string) (s : State W) :
  no_slash r = true ->
  basename (toRemoteBackupResource svc r) = r /\
  basename (toLocalBackupResource svc r) = r /\
  resolveContent js svc (toRemoteBackupResource svc r) s
  = (fst (store_resolveContent svc r (world s)),
     mkState (_status s) (_conflicts s) (syncPreviewPromise s) (syncHeaders s) (files s)
       (trace s ++ [StoreResolveContent r]) (snd (store_resolveContent svc r (world s)))) /\
  resolveContent js svc (toLocalBackupResource svc r) s
  = (fst (backup_resolveContent svc r (world s)),
     mkState (_status s) (_conflicts s) (syncPreviewPromise s) (syncHeaders s) (files s)
       (trace s ++ [BackupStoreResolveContent r])
       (snd (backup_resolveContent svc r (world s)))) /\
  getMachineId js svc (toLocalBackupResource svc r) s = (Ok None, s) /\
  (forall uri,
      authority uri <> "remote-backup" ->
      (authority uri <> "local-backup" -> resolveContent js svc uri s = (Ok None, s)) /\
      getMachineId js svc uri s = (Ok None, s)).
Proof.
  intros Hr. destruct (basename_backup r Hr) as [Hremote Hlocal].
  split_and!; try done.
  - by apply resolveContent_remote.
  - by apply resolveContent_local.
  - intros uri Hnot_remote. split.
    + intros Hnot_local. unfold resolveContent, isEqual.
      rewrite !bool_decide_false; [done| |];
        intros Heq; apply (f_equal authority) in Heq; simpl in Heq; done.
    + unfold getMachineId, isEqual.
      rewrite bool_decide_false; [done|].
      intros Heq. apply (f_equal authority) in Heq. simpl in Heq. done.
Qed.

(** X16.  The handles that the engine lists name the backups of the
    stores, in their order and with their dates; and a listed handle
    resolves to the backup it was listed for: [resolveContent] of its
    resource asks the store that listed it, by the reference it was listed
    with. *)
Theorem listed_handles_resolve
    (store_getAllRefs backup_getAllRefs : W -> Result (list IResourceRefHandle) * W)
    (refs : list IResourceRefHandle) (w : W) (s : State W) :
  Forall (fun h => no_slash (rh_ref h) = true) refs ->
  (store_getAllRefs (world s) = (Ok refs, w) ->
   exists handles s1,
     getRemoteSyncResourceHandles svc store_getAllRefs s = (Ok handles, s1) /\
     world s1 = w /\ trace s1 = trace s /\
     Forall2 (fun handle h =>
                created_of handle = rh_created h /\
                basename (uri_of handle) = rh_ref h /\
                forall s2,
                  trace (snd (resolveContent js svc (uri_of handle) s2))
                  = trace s2 ++ [StoreResolveContent (rh_ref h)])
       handles refs) /\
  (backup_getAllRefs (world s) = (Ok refs, w) ->
   exists handles s1,
     getLocalSyncResourceHandles svc backup_getAllRefs s = (Ok handles, s1) /\
     world s1 = w /\ trace s1 = trace s /\
     Forall2 (fun handle h =>
                created_of handle = rh_created h /\
                basename (uri_of handle) = rh_ref h /\
                forall s2,
                  trace (snd (resolveContent js svc (uri_of handle) s2))
                  = trace s2 ++ [BackupStoreResolveContent (rh_ref h)])
       handles refs).
Proof.
  intros Hrefs. split; intros Hall.
  - unfold getRemoteSyncResourceHandles. unfold_monad. rewrite Hall. simpl.
    do 2 eexists. split_and!; try reflexivity. clear Hall.
    induction Hrefs as [|h refs Hh Hrefs IH]; simpl; [constructor|].
    constructor; [|done].
    destruct (basename_backup _ Hh) as [Hname _].
    split_and!; try done.
    intros s2. simpl. by rewrite resolveContent_remote.
  - unfold getLocalSyncResourceHandles. unfold_monad. rewrite Hall. simpl.
    do 2 eexists. split_and!; try reflexivity. clear Hall.
    induction Hrefs as [|h refs Hh Hrefs IH]; simpl; [constructor|].
    constructor; [|done].
    destruct (basename_backup _ Hh) as [_ Hname].
    split_and!; try done.
    intros s2. simpl. by rewrite resolveContent_local.
Qed.

(** X17.  [getMachineId] of a remote backup answers the id of the machine
    that wrote it: the id of the current machine for an envelope as
    [updateRemoteUserData] writes it, and [undefined] for an envelope
    without a machine id, as [backupLocal] writes it, and for a backup
    without content.  On content that is no envelope it rejects with
    [Incompatible].  (The text of an envelope is taken to be read back as
    the object that was written.) *)
Theorem getMachineId_of_remote_backups (r : string) (d : ISyncData)
    (w : W) (s : State W) :
  no_slash r = true ->
  JSON_parse js (JSON_stringify js (syncData_object d)) = Some (syncData_object d) ->
  JSON_stringify js (syncData_object d) <> "" ->
  (store_resolveContent svc r (world s)
   = (Ok (Some (JSON_stringify js (syncData_object d))), w) ->
   fst (getMachineId js svc (toRemoteBackupResource svc r) s) = Ok (machineId_of d)) /\
  (store_resolveContent svc r (world s) = (Ok None, w) ->
   fst (getMachineId js svc (toRemoteBackupResource svc r) s) = Ok None) /\
  (store_resolveContent svc r (world s) = (Ok (Some ""), w) ->
   fst (getMachineId js svc (toRemoteBackupResource svc r) s) = Ok None) /\
  (forall text thing,
      store_resolveContent svc r (world s) = (Ok (Some text), w) ->
      text <> "" ->
      JSON_parse js text = Some thing ->
      isSyncData thing = false ->
      fst (getMachineId js svc (toRemoteBackupResource svc r) s)
      = Throw (UserDataSyncError Incompatible (Some (resource svc)))).
Proof.
  intros Hr Hroundtrip Hnonempty.
  destruct (basename_backup r Hr) as [Hname _].
  unfold getMachineId, isEqual. rewrite Hname.
  rewrite bool_decide_true by done.
  unfold getUserData, parseSyncData. unfold_monad.
  split_and!.
  - intros ->. simpl.
    apply String.eqb_neq in Hnonempty. rewrite Hnonempty, Hroundtrip.
    rewrite syncData_object_isSyncData. simpl.
    change (Ok (machineId_of (as_ISyncData (syncData_object d))) = Ok (machineId_of d)).
    by rewrite as_ISyncData_syncData_object.
  - by intros ->.
  - by intros ->.
  - intros text thing -> Htext Hparse Hthing. simpl.
    apply String.eqb_neq in Htext. by rewrite Htext, Hparse, Hthing.
Qed.
End Backups.

(** ** The file of a file-backed synchroniser *)

Section FileSynchroniser.
Context {W : Type}.
Variable svc : Services W.
Variable file : URI.
Variable IFileContent : Type.
Variable writeFile_since : URI -> string -> IFileContent -> M W unit.
Variable createFile_new : URI -> string -> M W unit.

(** X18.  [getLocalFileContent] never rejects: it answers the text of the
    file, or [null] when there is none, and changes nothing.
    [updateLocalFileContent] writes through the file service, over the
    snapshot it is given or as a new file, and leaves the state as the
    service does.  It fulfils exactly when the service does, and never
    rejects with [FILE_NOT_FOUND] or [FILE_MODIFIED_SINCE]: where the
    service refuses with one of them, the error is
    [LocalPreconditionFailed]. *)
Theorem file_access_of_the_file_synchroniser (newContent : string)
    (oldContent : option IFileContent) (s : State W) :
  let write := match oldContent with
               | Some old => writeFile_since file newContent old
               | None => createFile_new file newContent
               end in
  let update := updateLocalFileContent file IFileContent writeFile_since createFile_new
                  newContent oldContent in
  getLocalFileContent file s = (Ok (files s !! file), s) /\
  snd (update s) = snd (write s) /\
  (fst (update s) = Ok tt <-> fst (write s) = Ok tt) /\
  (forall code, fst (update s) <> Throw (FileOperationError code) \/ code = FILE_OTHER_ERROR) /\
  (fst (update s) = Throw (UserDataSyncError LocalPreconditionFailed None) <->
   fst (write s) = Throw (FileOperationError FILE_NOT_FOUND) \/
   fst (write s) = Throw (FileOperationError FILE_MODIFIED_SINCE) \/
   fst (write s) = Throw (UserDataSyncError LocalPreconditionFailed None)).
Proof.
  intros write update. split.
  { unfold getLocalFileContent, try_catch, readFile. unfold_monad.
    by destruct (files s !! file). }
  subst update. unfold updateLocalFileContent, try_catch. fold write.
  destruct (write s) as [[[]|e|] s'] eqn:Hwrite; simpl.
  - split_and!; try done.
    + by left.
    + split; [done|]. by intros [|[|]].
  - destruct e as [code source|[]| | | |message]; unfold throw; simpl;
      split_and!; try done;
      try (intros [| |]; by (left + right));
      try (split; [done|]; by intros [|[|]]);
      try (split; [intros; by (left + (right; left) + (right; right))|done]).
    split; [|by intros [|[|]]]. intros [= -> ->]. by right; right.
  - split_and!; try done.
    + by left.
    + split; [done|]. by intros [|[|]].
Qed.
End FileSynchroniser.

(** ** Stopping *)

Section Stopping.
Context {W : Type}.
Variable js : Builtins.
Variable svc : Services W.
Variable version : Z.
Variable this : Synchroniser W.

Lemma setStatus_same (status : SyncStatus) (s : State W) :
  _status s = status -> setStatus svc status s = (Ok tt, s).
Proof.
  intros <-. unfold setStatus. unfold_monad.
  rewrite bool_decide_false by (intros H; by apply H). by destruct s.
Qed.

Lemma keeps_world_stop : keeps world (stop svc).
Proof. unfold stop, setStatus, setConflicts. frame. Qed.

Lemma stop_twice (s : State W) :
  stop svc (snd (stop svc s)) = (Ok tt, snd (stop svc s)).
Proof.
  pose proof (stop_preview svc s) as Hnone.
  destruct (stop_returns svc s) as [_ Hidle].
  unfold stop at 1. unfold bind at 1. unfold gets at 1. rewrite Hnone.
  unfold bind, ret. by apply setStatus_same.
Qed.

(** X19.  [stop] of the file-backed synchroniser never rejects, whether
    there is a preview file or not.  Afterwards the status is [Idle],
    there is no preview future and no preview file; no other file and no
    collaborator is touched.  Stopping again changes nothing, and so for
    the [stop] of the base class. *)
Theorem stop_of_the_file_synchroniser (localPreviewResource : URI) (s : State W) :
  let file_stop := AbstractFileSynchroniser_stop localPreviewResource (stop svc) in
  let s' := snd (file_stop s) in
  fst (file_stop s) = Ok tt /\
  _status s' = Idle /\
  syncPreviewPromise s' = None /\
  files s' !! localPreviewResource = None /\
  (forall f, f <> localPreviewResource -> files s' !! f = files s !! f) /\
  world s' = world s /\
  file_stop s' = (Ok tt, s') /\
  stop svc (snd (stop svc s)) = (Ok tt, snd (stop svc s)).
Proof.
  intros file_stop s'.
  destruct (stop_returns svc s) as [Hstop Hidle].
  pose proof (stop_preview svc s) as Hnone.
  pose proof (keeps_files_stop svc s) as Hfiles.
  pose proof (keeps_world_stop s) as Hworld.
  pose proof (stop_twice s) as Htwice.
  assert (file_stop s
          = match files s !! localPreviewResource with
            | Some _ =>
                (Ok tt,
                 observed (FileDeleted localPreviewResource)
                   (mkState Idle (_conflicts (snd (stop svc s))) None
                      (syncHeaders (snd (stop svc s)))
                      (delete localPreviewResource (files s))
                      (trace (snd (stop svc s))) (world s)))
            | None => (Ok tt, snd (stop svc s))
            end) as Hfile_stop.
  { subst file_stop. unfold AbstractFileSynchroniser_stop, bind.
    rewrite Hstop. unfold try_catch, del. unfold_monad.
    rewrite Hfiles.
    destruct (files s !! localPreviewResource); unfold_monad; [|done].
    by rewrite Hidle, Hnone, Hworld. }
  assert (files s' !! localPreviewResource = None) as Hgone.
  { subst s'. rewrite Hfile_stop.
    destruct (files s !! localPreviewResource) eqn:Hfile; simpl.
    - apply lookup_delete_eq.
    - by rewrite Hfiles. }
  assert (_status s' = Idle /\ syncPreviewPromise s' = None) as [Hidle' Hnone'].
  { subst s'. rewrite Hfile_stop.
    by destruct (files s !! localPreviewResource). }
  split_and!; try done.
  - rewrite Hfile_stop. by destruct (files s !! localPreviewResource).
  - intros f Hf. subst s'. rewrite Hfile_stop.
    destruct (files s !! localPreviewResource); simpl.
    + by rewrite lookup_delete_ne.
    + by rewrite Hfiles.
  - subst s'. rewrite Hfile_stop.
    by destruct (files s !! localPreviewResource).
  - subst file_stop. unfold AbstractFileSynchroniser_stop, bind.
    assert (stop svc s' = (Ok tt, s')) as ->.
    { unfold stop. unfold_monad. rewrite Hnone'. simpl. by apply setStatus_same. }
    unfold try_catch, del. unfold_monad. by rewrite Hgone.
Qed.

(** X20.  With the [stop] of the base class, which has no suspension
    point, [push] loses nothing by not waiting for it: [stop] has run to
    its end within the first turn of [push], before the status becomes
    [Syncing], and [push] is then where [pull] is after its second turn. *)
Theorem push_with_the_stop_of_the_base_class (s : State W) :
  isResourceEnabled svc (world s) = true ->
  let push := Turns.push js svc this (Turns.stop_task svc) in
  let pull := Turns.pull js svc this (Turns.stop_task svc) in
  snd (fst (Turns.turn push s)) = [@Turns.Done W unit (Ok tt)] /\
  snd (Turns.turn push s)
  = snd (getLastSyncUserData js svc (snd (setStatus svc Syncing (snd (stop svc s))))) /\
  snd (Turns.after_turns 1 push s) = snd (Turns.after_turns 2 pull s).
Proof.
  intros Henabled push pull.
  destruct (stop_returns svc s) as [Hstop Hidle].
  destruct (setStatus_status svc Syncing (snd (stop svc s))) as [Hset Hsyncing].
  subst push pull.
  unfold Turns.push, Turns.pull, Turns.stop_task, Turns.seq, Turns.awaiting,
    Turns.finally, Turns.piece, isEnabled.
  unfold_monad. rewrite Henabled. simpl. rewrite Hstop. simpl. rewrite Hset. simpl.
  destruct (getLastSyncUserData js svc _) as [[lastSync|e|] s1]; by simpl.
Qed.
End Stopping.

(** ** A local change *)

Section LocalChange.
Context {W : Type}.
Variable js : Builtins.
Variable svc : Services W.
Variable version : Z.
Variable this : Synchroniser W.

(** X21.  Outside conflicts, [doTriggerLocalChange] fires the event of a
    local change when there is no last-sync record, asking nobody; with a
    record, it generates a preview that takes the record for the remote
    data, and fires the event exactly when that preview says that the
    remote would change.  In conflicts but without a preview future it
    rejects with a [TypeError]. *)
Theorem doTriggerLocalChange_outside_conflicts (fuel : nat) (s : State W) :
  (_status s <> HasConflicts ->
   files s !! lastSyncResource svc = None ->
   doTriggerLocalChange js svc version this fuel s = (Ok tt, observed DidChangeLocal s)) /\
  (forall lastSync s1 preview s2,
      _status s <> HasConflicts ->
      getLastSyncUserData js svc s = (Ok (Some lastSync), s1) ->
      generatePreview this lastSync (Some lastSync) s1 = (Ok preview, s2) ->
      doTriggerLocalChange js svc version this fuel s
      = (Ok tt, if hasRemoteChanged preview then observed DidChangeLocal s2 else s2)) /\
  (_status s = HasConflicts ->
   syncPreviewPromise s = None ->
   doTriggerLocalChange js svc version this fuel s = (Throw TypeError, s)).
Proof.
  split_and!.
  - intros Hstatus Hfile. unfold doTriggerLocalChange.
    unfold bind at 1. unfold gets at 1.
    rewrite bool_decide_false by done.
    unfold bind at 1.
    by rewrite (getLastSyncUserData_without_file js svc s Hfile).
  - intros lastSync s1 preview s2 Hstatus Hlast Hpreview. unfold doTriggerLocalChange.
    unfold bind at 1. unfold gets at 1.
    rewrite bool_decide_false by done.
    unfold bind at 1. rewrite Hlast.
    unfold bind at 1. unfold bind at 1. rewrite Hpreview. unfold ret at 1.
    by destruct (hasRemoteChanged preview).
  - intros Hstatus Hnone. unfold doTriggerLocalChange. unfold_monad.
    rewrite Hstatus. simpl. rewrite Hnone. simpl.
    destruct s. simpl in *. by subst.
Qed.
End LocalChange.

(** ** Where [replace], [pull] and [push] end *)

Section EndsIdle.
Context {W : Type}.
Variable js : Builtins.
Variable svc : Services W.
Variable version : Z.
Variable this : Synchroniser W.

Lemma keeps_status_parseSyncData (content : string) :
  keeps _status (parseSyncData js svc content).
Proof. unfold parseSyncData. frame. Qed.

Lemma keeps_status_resolveContent (uri : URI) : keeps _status (resolveContent js svc uri).
Proof. unfold resolveContent, getUserData. frame. Qed.

(** X22.  When [stop] is not overridden: [replace] that answers [true]
    leaves the status [Idle], whatever the subclass did; [replace] that
    answers [false] has stopped nothing, the status and the preview future
    are as before; and when it rejects, the status is [Idle], or nothing
    was stopped. *)
Theorem replace_ends_idle (uri : URI) (s : State W) :
  (forall s0, this_stop svc this s0 = stop svc s0) ->
  match replace js svc this uri s with
  | (Ok true, s') => _status s' = Idle
  | (Ok false, s') =>
      _status s' = _status s /\ syncPreviewPromise s' = syncPreviewPromise s
  | (Throw _, s') =>
      _status s' = Idle \/
      _status s' = _status s /\ syncPreviewPromise s' = syncPreviewPromise s
  | (Diverge, _) => True
  end.
Proof.
  intros Hstop. unfold replace. unfold bind at 1.
  pose proof (keeps_status_resolveContent uri s) as Hstatus.
  pose proof (keeps_preview_resolveContent js svc uri s) as Hpreview.
  destruct (resolveContent js svc uri s) as [[[content|]|e|] s1]; simpl in *;
    [|done|by right|done].
  destruct (String.eqb content ""); [done|].
  unfold bind at 1.
  pose proof (keeps_status_parseSyncData content s1) as Hstatus1.
  pose proof (keeps_preview_parseSyncData js svc content s1) as Hpreview1.
  destruct (parseSyncData js svc content s1) as [[d|e|] s2]; simpl in *;
    [|right; split; congruence|done].
  unfold bind at 1. rewrite Hstop.
  destruct (stop_returns svc s2) as [-> _].
  unfold bind at 1. unfold try_finally.
  match goal with
  | |- context [bind (setStatus svc Syncing) ?k ?s0] =>
      destruct (bind (setStatus svc Syncing) k s0) as [[[]|e|] s3]
  end; [| |done].
  - destruct (setStatus_status svc Idle s3) as [Hset Hidle]. rewrite Hset. by simpl.
  - destruct (setStatus_status svc Idle s3) as [Hset Hidle]. rewrite Hset. simpl.
    by left.
Qed.
Ltac run_to_the_end :=
  repeat match goal with
         | |- context [getLastSyncUserData ?js ?svc ?s0] =>
             destruct (getLastSyncUserData js svc s0) as [[?|?|] ?]; simpl
         | |- context [getRemoteUserData ?js ?svc ?l ?s0] =>
             destruct (getRemoteUserData js svc l s0) as [[?|?|] ?]; simpl
         | |- context [generatePullPreview ?this ?r ?l ?s0] =>
             destruct (generatePullPreview this r l s0) as [[?|?|] ?]; simpl
         | |- context [generatePushPreview ?this ?r ?l ?s0] =>
             destruct (generatePushPreview this r l s0) as [[?|?|] ?]; simpl
         | |- context [applyPreview ?this ?p ?b ?s0] =>
             destruct (applyPreview this p b s0) as [[[]|?|] ?]; simpl
         | |- context [setStatus ?svc Idle ?s0] =>
             let Hset := fresh "Hset" in
             let Hidle := fresh "Hidle" in
             destruct (setStatus_status svc Idle s0) as [Hset Hidle];
             destruct (setStatus svc Idle s0) as [? ?];
             simpl in Hset, Hidle; injection Hset as ->; simpl
         end.

(** X23.  With the [stop] of the base class, [pull] settles within six
    turns and [push] within five, and both leave the status [Idle],
    whether the stores and the subclass fulfil or reject. *)
Theorem pull_and_push_end_idle (s : State W) :
  isResourceEnabled svc (world s) = true ->
  let pull := Turns.pull js svc this (Turns.stop_task svc) in
  let push := Turns.push js svc this (Turns.stop_task svc) in
  (exists r,
      fst (Turns.after_turns 6 pull s) = @Turns.Done W unit r /\
      (r <> Diverge -> _status (snd (Turns.after_turns 6 pull s)) = Idle)) /\
  (exists r,
      fst (Turns.after_turns 5 push s) = @Turns.Done W unit r /\
      (r <> Diverge -> _status (snd (Turns.after_turns 5 push s)) = Idle)).
Proof.
  intros Henabled pull push.
  destruct (stop_returns svc s) as [Hstop _].
  destruct (setStatus_status svc Syncing (snd (stop svc s))) as [Hsyncing _].
  subst pull push.
  unfold Turns.push, Turns.pull, Turns.stop_task, Turns.seq, Turns.awaiting,
    Turns.finally, Turns.piece, isEnabled.
  unfold_monad. rewrite Henabled. simpl. rewrite Hstop. simpl.
  rewrite Hsyncing. simpl.
  split; run_to_the_end; eexists; (split; [reflexivity|]); simpl; done.
Qed.
End EndsIdle.

(** ** A synchronised engine *)

Section Synchronised.
Context {W : Type}.
Variable js : Builtins.
Variable svc : Services W.

Lemma getLastSyncUserData_reads_envelope (text c : string) (parsed thing : JsVal)
    (s : State W) :
  files s !! lastSyncResource svc = Some text ->
  JSON_parse js text = Some parsed ->
  getprop parsed "content" = Some (JStr c) ->
  JSON_parse js c = Some thing ->
  isSyncData thing = true ->
  getLastSyncUserData js svc s = (Ok (Some (lastSync_of parsed (as_ISyncData thing))), s).
Proof.
  intros Hfile Hparsed Hcontent Hc Hthing.
  unfold getLastSyncUserData, try_catch, readFile, JSON_parse_value. unfold_monad.
  rewrite Hfile. simpl. rewrite Hparsed. simpl. rewrite Hcontent. simpl.
  rewrite Hc. simpl. by rewrite Hthing.
Qed.

(** X25.  Once [updateLastSyncUserData] has recorded remote data, the
    engine has synchronised before, and as long as the manifest names the
    reference of the record as the latest, the latest remote data are
    those of the record: neither reading the record nor
    [getLatestRemoteUserData] asks the remote store or changes anything.
    (The texts that were written are taken to be read back as the objects
    that were written.) *)
Theorem last_sync_record_saves_the_read (remoteUserData : IRemoteUserData) (r : string)
    (d : ISyncData) (manifest : option IUserDataManifest) (s : State W) :
  ref remoteUserData = JStr r ->
  syncData remoteUserData = Some d ->
  manifest_ref manifest (resource svc) = Some r ->
  JSON_parse js (JSON_stringify js (syncData_object d)) = Some (syncData_object d) ->
  JSON_parse js (JSON_stringify js (lastSync_record js remoteUserData ∅))
  = Some (lastSync_record js remoteUserData ∅) ->
  let s1 := snd (updateLastSyncUserData js svc remoteUserData ∅ s) in
  exists lastSync,
    getLastSyncUserData js svc s1 = (Ok (Some lastSync), s1) /\
    ref lastSync = JStr r /\
    syncData lastSync = Some d /\
    getLatestRemoteUserData js svc manifest (Some lastSync) s1 = (Ok lastSync, s1) /\
    hasPreviouslySynced js svc s1 = (Ok true, s1).
Proof.
  intros Href Hd Hmanifest Henvelope Hrecord s1.
  assert (getLastSyncUserData js svc s1
          = (Ok (Some (lastSync_of (lastSync_record js remoteUserData ∅)
                         (as_ISyncData (syncData_object d)))), s1)) as Hlast.
  { apply (getLastSyncUserData_reads_envelope
             (JSON_stringify js (lastSync_record js remoteUserData ∅))
             (JSON_stringify js (syncData_object d))); try done.
    - subst s1. rewrite updateLastSyncUserData_writes. simpl.
      apply lookup_insert_eq.
    - unfold lastSync_record. rewrite Hd. simpl.
      rewrite lookup_union_r by done.
      by rewrite lookup_insert_ne, lookup_insert_eq.
    - apply syncData_object_isSyncData. }
  eexists. split; [exact Hlast|].
  assert (ref (lastSync_of (lastSync_record js remoteUserData ∅)
                 (as_ISyncData (syncData_object d))) = JStr r) as Href'.
  { unfold lastSync_of, lastSync_record. simpl.
    rewrite lookup_union_r by done. by rewrite lookup_insert_eq. }
  split_and!.
  - done.
  - simpl. by rewrite as_ISyncData_syncData_object.
  - unfold getLatestRemoteUserData.
    rewrite latestRef_of_manifest_ref, Hmanifest, Href'.
    by rewrite (proj2 (strict_eq_JStr r r)).
  - unfold hasPreviouslySynced, bind. rewrite Hlast. unfold ret.
    by rewrite bool_decide_true.
Qed.
End Synchronised.

(** ** The content of a conflict *)

Section ConflictContent.
Context {W : Type}.
Variable localPreviewResource : URI.
Variable remotePreviewResource : URI.
Variable fileContent_value : ISyncPreview -> option string.

(** X26.  [getConflictContent] changes nothing.  For a resource that is
    neither preview resource it answers [null] without looking at the
    preview future, also when the future is rejected; for a preview
    resource it answers [null] when no preview is in progress, rejects
    with the reason of a rejected future, and else answers the content of
    the remote envelope for the remote preview resource (also when both
    preview resources are the same) and the text of the file for the local
    one. *)
Theorem getConflictContent_spec (conflictResource : URI) (s : State W) :
  let content := getConflictContent localPreviewResource remotePreviewResource
                   fileContent_value conflictResource in
  snd (content s) = s /\
  (conflictResource <> remotePreviewResource ->
   conflictResource <> localPreviewResource ->
   content s = (Ok None, s)) /\
  (syncPreviewPromise s = None -> content s = (Ok None, s)) /\
  (forall e,
      syncPreviewPromise s = Some (Rejected e) ->
      conflictResource = remotePreviewResource \/ conflictResource = localPreviewResource ->
      content s = (Throw e, s)) /\
  (forall preview,
      syncPreviewPromise s = Some (Fulfilled preview) ->
      (conflictResource = remotePreviewResource ->
       content s = (Ok (content_of <$> syncData (remoteUserData preview)), s)) /\
      (conflictResource = localPreviewResource ->
       conflictResource <> remotePreviewResource ->
       content s = (Ok (fileContent_value preview), s))).
Proof.
  intros content. subst content.
  unfold getConflictContent, getSyncPreviewInProgress, await, isEqual. unfold_monad.
  split_and!.
  - repeat case_bool_decide; simpl; try done;
      destruct (syncPreviewPromise s) as [[preview|e]|]; done.
  - intros Hremote Hlocal. by rewrite !bool_decide_false.
  - intros Hnone. repeat case_bool_decide; simpl; rewrite ?Hnone; done.
  - intros e Hrejected [-> | ->]; repeat case_bool_decide; simpl;
      rewrite ?Hrejected; done.
  - intros preview Hpreview. split.
    + intros ->. rewrite bool_decide_true by done. simpl. rewrite Hpreview.
      by destruct (syncData (remoteUserData preview)).
    + intros -> Hother.
      rewrite (bool_decide_false (remotePreviewResource = localPreviewResource))
        by done.
      rewrite bool_decide_true by done. simpl. by rewrite Hpreview.
Qed.
End ConflictContent.

(** * The engine on the synchroniser of the tests *)

Section Tests.
Import TestSynchroniser.

(** test: status is set correctly when sync is finished *)
Example status_when_sync_is_finished :
  let '(r, s) := test_sync (created (client false false)) in
  r = Ok tt /\ statuses (trace s) = [Syncing; Idle] /\ _status s = Idle.
Proof. vm_compute. done. Qed.

(** test: status is set correctly when sync has conflicts *)
Example status_when_sync_has_conflicts :
  let '(r, s) := test_sync (created (client true false)) in
  r = Ok tt /\ statuses (trace s) = [Syncing; HasConflicts] /\ _status s = HasConflicts.
Proof. vm_compute. done. Qed.

(** test: status is set correctly when sync has errors *)
Example status_when_sync_has_errors :
  let '(r, s) := test_sync (created (client false true)) in
  r = Throw (Error "failed") /\ statuses (trace s) = [Syncing; Idle] /\
  _status s = Idle /\ syncPreviewPromise s = None.
Proof. vm_compute. done. Qed.

(** test: sync should not run if syncing already *)
Example sync_does_not_run_if_syncing_already :
  let '(r, s) := test_sync syncing in
  r = Ok tt /\ statuses (trace s) = [] /\ _status s = Syncing.
Proof. vm_compute. done. Qed.

(** test: sync should not run if disabled *)
Example sync_does_not_run_if_disabled :
  let '(r, s) := test_sync (created (mkWorld false None [] false false false 0)) in
  r = Ok tt /\ statuses (trace s) = [] /\ _status s = Idle.
Proof. vm_compute. done. Qed.

(** test: sync should not run if there are conflicts *)
Example sync_does_not_run_if_there_are_conflicts :
  let '(r, s) := test_sync conflicted in
  r = Ok tt /\ statuses (trace s) = [] /\ _status s = HasConflicts.
Proof. vm_compute. done. Qed.

(** test: request latest data on precondition failure *)
Example request_latest_data_on_precondition_failure :
  let envelope := Json.stringify (syncData_object (mkSyncData 1 (Some "machine-1") "")) in
  let '(r, s) := performSync Json.builtins services version synchroniser 8
                   (remote_at "1" 1) (Some (remote_at "1" 1)) overtaken in
  r = Ok Idle /\
  requests (trace s)
  = [StoreWrite envelope (JStr "1") ∅; StoreRead None ∅; StoreWrite envelope (JStr "2") ∅].
Proof. vm_compute. done. Qed.

(** test: no requests are made to server when local change is triggered *)
Example no_requests_when_local_change_is_triggered :
  let '(r, s) := doTriggerLocalChange Json.builtins services version synchroniser 8 synced in
  r = Ok tt /\ requests (trace s) = [].
Proof. vm_compute. done. Qed.

(** [push] and [pull] of a file-backed synchroniser, run by the event loop:
    [push] is [Syncing] before the preview file is deleted, [pull] after. *)
Example push_and_pull_traces :
  let stop := Turns.file_stop_task services localPreviewResource in
  trace <$> Turns.eventLoop 30 [Turns.push Json.builtins services synchroniser stop]
              with_preview_file
  = Some [DidChangeStatus Syncing; FileDeleted localPreviewResource; StoreRead None ∅;
          DidChangeStatus Idle] /\
  trace <$> Turns.eventLoop 30 [Turns.pull Json.builtins services synchroniser stop]
              with_preview_file
  = Some [FileDeleted localPreviewResource; DidChangeStatus Syncing; StoreRead None ∅;
          DidChangeStatus Idle].
Proof. vm_compute. done. Qed.
End Tests.

(** * The properties at concrete inputs *)

Section Witnesses.
Import TestSynchroniser.

(** The retry of [performSync], when another client has overtaken this
    one: [doSync] is rejected with [PreconditionFailed]. *)
Lemma performSync_retries_witness :
  let s1 := snd (this_doSync synchroniser (remote_at "1" 1) (Some (remote_at "1" 1))
                   overtaken) in
  this_doSync synchroniser (remote_at "1" 1) (Some (remote_at "1" 1)) overtaken
  = (Throw (UserDataSyncError PreconditionFailed (Some "settings")), s1) /\
  performSync Json.builtins services version synchroniser 3 (remote_at "1" 1)
    (Some (remote_at "1" 1)) overtaken
  = (remoteUserData' <- getRemoteUserData Json.builtins services None ;;
     lastSyncUserData' <- getLastSyncUserData Json.builtins services ;;
     performSync Json.builtins services version synchroniser 2 remoteUserData'
       lastSyncUserData') s1.
Proof.
  intros s1.
  assert (this_doSync synchroniser (remote_at "1" 1) (Some (remote_at "1" 1)) overtaken
          = (Throw (UserDataSyncError PreconditionFailed (Some "settings")), s1)) as H
    by (vm_compute; reflexivity).
  split; [exact H|].
  exact (proj1 (performSync_retries Json.builtins services version synchroniser 2
                  (remote_at "1" 1) (Some (remote_at "1" 1)) _ overtaken s1
                  eq_refl H)).
Defined.

(** Remote data of version 2 for the synchroniser of version 1. *)
Lemma performSync_incompatible_witness :
  performSync Json.builtins services version synchroniser 1 (remote_at "1" 2) None
    (created (client false false))
  = (Throw (UserDataSyncError Incompatible (Some "settings")),
     observed (PublicLog "sync/incompatible" "settings") (created (client false false))).
Proof.
  apply (performSync_incompatible Json.builtins services version synchroniser 0
           (remote_at "1" 2) None (mkSyncData 2 (Some "machine-1") "")).
  - reflexivity.
  - reflexivity.
Defined.


(** A second [sync] while the first one is running. *)
Lemma sync_refuses_reentry_witness :
  test_sync syncing = (Ok tt, syncing).
Proof.
  apply (sync_refuses_reentry Json.builtins services version synchroniser 8
           (manifest (world syncing)) ∅ syncing).
  - reflexivity.
  - by left.
Defined.

(** C2, as stated, fails when the resource has been disabled while the
    engine was synchronising: [sync] stops the engine, the status
    becomes [Idle] and one status event is fired. *)
Lemma sync_while_syncing_and_disabled :
  _status disabled_while_syncing = Syncing /\
  test_sync disabled_while_syncing
  = (Ok tt,
     mkState Idle [] None ∅ ∅ [DidChangeStatus Idle]
       (mkWorld false None [] false false true 1)).
Proof. split; [reflexivity | vm_compute; reflexivity]. Qed.



(** A handle whose content is not an envelope. *)
Lemma replace_unrecognised_content_witness :
  resolveContent Json.builtins services (toRemoteBackupResource services "1")
    with_broken_backup
  = (Ok (Some (Json.stringify (JObj {["version" := JNum 1]}))), observed (StoreResolveContent "1") with_broken_backup) /\
  fst (replace Json.builtins services synchroniser (toRemoteBackupResource services "1")
         with_broken_backup)
  = Throw (UserDataSyncError Incompatible (Some "settings")).
Proof.
  assert (resolveContent Json.builtins services (toRemoteBackupResource services "1")
            with_broken_backup
          = (Ok (Some (Json.stringify (JObj {["version" := JNum 1]}))),
             observed (StoreResolveContent "1") with_broken_backup)) as H
    by (vm_compute; reflexivity).
  split; [exact H|].
  refine (proj1 (replace_unrecognised_content Json.builtins services synchroniser
                   (toRemoteBackupResource services "1") (Json.stringify (JObj {["version" := JNum 1]}))
                   with_broken_backup _ H _ _)).
  - discriminate.
  - intros thing. vm_compute. intros [= <-]. reflexivity.
Defined.

(** [push] of a file-backed synchroniser whose preview file exists. *)
Lemma push_does_not_await_stop_witness :
  let '(_, forked, s1) :=
    Turns.turn (Turns.push Json.builtins services synchroniser
                  (Turns.file_stop_task services localPreviewResource))
      with_preview_file in
  _status s1 = Syncing /\
  files s1 !! localPreviewResource = Some "{}" /\
  exists rest_of_stop,
    forked = [rest_of_stop] /\
    files (snd (Turns.after_turns 1 rest_of_stop s1)) !! localPreviewResource = None.
Proof.
  refine (proj1 (push_does_not_await_stop Json.builtins services synchroniser
                   localPreviewResource "{}" with_preview_file _ _)).
  - reflexivity.
  - vm_compute. reflexivity.
Defined.

(** A last-sync record for a resource that was absent remotely, written
    with an additional property. *)
Lemma lastSync_null_envelope_witness :
  let lastSync := mkRemoteUserData (JStr "0") None ∅ in
  let additionalProps : gmap string JsVal := {["skippedExtensions" := JArr []]} in
  let s1 := snd (updateLastSyncUserData Json.builtins services lastSync additionalProps
                   (created (client false false))) in
  getLastSyncUserData Json.builtins services s1 = (Ok (Some lastSync), s1).
Proof.
  intros lastSync additionalProps.
  apply (lastSync_null_envelope_loses_additional_properties Json.builtins services
           lastSync additionalProps (created (client false false))).
  - reflexivity.
  - vm_compute. reflexivity.
  - vm_compute. reflexivity.
  - vm_compute. reflexivity.
Defined.

(** A last-sync record with an envelope and an additional property. *)
Lemma lastSync_envelope_witness :
  let lastSync := remote_at "1" 1 in
  let additionalProps : gmap string JsVal := {["skippedExtensions" := JArr []]} in
  let s1 := snd (updateLastSyncUserData Json.builtins services lastSync additionalProps
                   (created (client false false))) in
  getLastSyncUserData Json.builtins services s1
  = (Ok (Some (mkRemoteUserData (JStr "1") (syncData lastSync)
                 (<["content" := JUndefined]> additionalProps))), s1).
Proof.
  intros lastSync additionalProps.
  apply (lastSync_envelope_keeps_additional_properties Json.builtins services
           lastSync (mkSyncData 1 (Some "machine-1") "") additionalProps
           (created (client false false))).
  - reflexivity.
  - vm_compute. reflexivity.
  - vm_compute. reflexivity.
  - vm_compute. reflexivity.
  - vm_compute. reflexivity.
  - vm_compute. reflexivity.
Defined.
(** A handle that is neither a remote nor a local backup of the resource. *)
Lemma replace_unresolved_content_witness :
  replace Json.builtins services synchroniser (mkURI "file" "" "/settings.json")
    (created (client false false))
  = (Ok false, created (client false false)).
Proof.
  apply (replace_unresolved_content Json.builtins services synchroniser).
  left. vm_compute. reflexivity.
Defined.
End Witnesses.

(** * The further properties at concrete inputs *)

(** [doSync] after a synchronisation that found conflicts. *)
Lemma doSync_uses_the_preview_in_progress_witness :
  doSync TestSynchroniser.synchroniser (TestSynchroniser.remote_at "1" 1) None TestSynchroniser.conflicted
  = doSync TestSynchroniser.synchroniser (TestSynchroniser.remote_at "2" 1) (Some (TestSynchroniser.remote_at "1" 1)) TestSynchroniser.conflicted /\
  doSync TestSynchroniser.synchroniser (TestSynchroniser.remote_at "1" 1) None TestSynchroniser.conflicted = (Ok HasConflicts, TestSynchroniser.conflicted).
Proof.
  apply (doSync_uses_the_preview_in_progress TestSynchroniser.synchroniser
           (Fulfilled (mkPreview (mkRemoteUserData (JStr "0") None ∅) None false false
                         true false {["ref" := JStr "0"]}))
           (TestSynchroniser.remote_at "1" 1) (TestSynchroniser.remote_at "2" 1) None (Some (TestSynchroniser.remote_at "1" 1)) TestSynchroniser.conflicted).
  vm_compute. reflexivity.
Defined.

Section FurtherWitnesses.
Import TestSynchroniser.

(** A last-sync file whose text is not JSON. *)
Lemma getLastSyncUserData_unusable_record_witness :
  let s := mkState Idle [] None ∅ {[lastSyncResource services := "synced"]} []
             (client false false) in
  getLastSyncUserData Json.builtins services s
  = (Ok None, observed (LogError SyntaxError) s).
Proof.
  intros s.
  refine (proj1 (getLastSyncUserData_unusable_record Json.builtins services "synced" s _)
            _).
  - vm_compute. reflexivity.
  - vm_compute. reflexivity.
Defined.

(** The first [sync] against a server whose data are no envelope. *)
Lemma sync_stays_Syncing_when_fetch_fails_witness :
  fst (test_sync with_broken_backup)
  = Throw (UserDataSyncError Incompatible (Some "settings")) /\
  _status (snd (test_sync with_broken_backup)) = Syncing.
Proof.
  pose proof (sync_stays_Syncing_when_fetch_fails Json.builtins services version
                synchroniser 8 (manifest (world with_broken_backup)) ∅ None
                (UserDataSyncError Incompatible (Some "settings")) with_broken_backup
                (snd (setStatus services Syncing (with_headers ∅ with_broken_backup)))
                eq_refl eq_refl) as H.
  assert (getLastSyncUserData Json.builtins services
            (snd (setStatus services Syncing (with_headers ∅ with_broken_backup)))
          = (Ok None, snd (setStatus services Syncing (with_headers ∅ with_broken_backup))))
    as H1 by (vm_compute; reflexivity).
  assert (fst (getLatestRemoteUserData Json.builtins services
                 (manifest (world with_broken_backup)) None
                 (snd (setStatus services Syncing (with_headers ∅ with_broken_backup))))
          = Throw (UserDataSyncError Incompatible (Some "settings")))
    as H2 by (vm_compute; reflexivity).
  destruct (H H1 H2) as (Hthrows & Hsyncing & _).
  exact (conj Hthrows Hsyncing).
Defined.

(** A first [sync] that finds conflicts, with [doSync] as the base class
    has it. *)
Lemma sync_outcome_witness :
  match sync Json.builtins services version without_overrides 8 None ∅
          (created (client true false)) with
  | (Ok _, s') =>
      syncHeaders s' = ∅ /\
      (_status s' = Idle /\ syncPreviewPromise s' = None \/
       _status s' = HasConflicts /\
       exists preview,
         syncPreviewPromise s' = Some (Fulfilled preview) /\ hasConflicts preview = true)
  | (Throw _, s') => syncHeaders s' = ∅ /\ (_status s' = Idle \/ _status s' = Syncing)
  | (Diverge, _) => True
  end.
Proof.
  apply (sync_outcome Json.builtins services version without_overrides 8 None ∅
           (created (client true false))).
  - intros remote lastSync s0. reflexivity.
  - reflexivity.
  - reflexivity.
Defined.

(** An engine with conflicts whose preview was rejected. *)
Lemma rejected_preview_stays_witness :
  let s := mkState HasConflicts [] (Some (Rejected (Error "failed"))) ∅ ∅ []
             (client true false) in
  doTriggerLocalChange Json.builtins services version synchroniser 3 s
  = (Throw (Error "failed"), s).
Proof.
  intros s.
  destruct (rejected_preview_stays Json.builtins services version synchroniser 3
              (Error "failed") localPreviewResource "" None ∅ s eq_refl eq_refl)
    as (_ & _ & Hchange & _).
  exact Hchange.
Defined.

(** The test [sync should not run if disabled], and so for
    [generateSyncPreview]. *)
Lemma disabled_engine_is_silent_witness :
  let s := created (mkWorld false None [] false false false 0) in
  generateSyncPreview Json.builtins services synchroniser s = (Ok None, s).
Proof.
  intros s.
  exact (proj1 (disabled_engine_is_silent Json.builtins services version synchroniser 8
                  None ∅ (Turns.stop_task services) s eq_refl)).
Defined.

(** The backup of reference [1]. *)
Lemma backups_are_addressed_by_name_witness :
  basename (toRemoteBackupResource services "1") = "1" /\
  basename (toLocalBackupResource services "1") = "1".
Proof.
  destruct (backups_are_addressed_by_name Json.builtins services "1" synced eq_refl)
    as (Hremote & Hlocal & _).
  exact (conj Hremote Hlocal).
Defined.

(** The handles of a server at reference [1]. *)
Lemma listed_handles_resolve_witness :
  exists handles s1,
    getRemoteSyncResourceHandles services all_refs synced = (Ok handles, s1) /\
    world s1 = world synced /\ trace s1 = trace synced /\
    Forall2 (fun handle h =>
               created_of handle = rh_created h /\
               basename (uri_of handle) = rh_ref h /\
               forall s2,
                 trace (snd (resolveContent Json.builtins services (uri_of handle) s2))
                 = trace s2 ++ [StoreResolveContent (rh_ref h)])
      handles [mkRefHandle "1" 1].
Proof.
  refine (proj1 (listed_handles_resolve Json.builtins services all_refs all_refs
                   [mkRefHandle "1" 1] (world synced) synced _) _).
  - repeat constructor.
  - vm_compute. reflexivity.
Defined.

(** The backup that the synchronisation of the tests wrote. *)
Lemma getMachineId_of_remote_backups_witness :
  fst (getMachineId Json.builtins services (toRemoteBackupResource services "1") synced)
  = Ok (Some "machine-1").
Proof.
  refine (proj1 (getMachineId_of_remote_backups Json.builtins services "1"
                   (mkSyncData 1 (Some "machine-1") "") (world synced) synced _ _ _) _).
  - reflexivity.
  - vm_compute. reflexivity.
  - vm_compute. discriminate.
  - vm_compute. reflexivity.
Defined.

(** [push] of the synchroniser of the tests, with the [stop] of the base
    class. *)
Lemma push_with_the_stop_of_the_base_class_witness :
  snd (fst (Turns.turn (Turns.push Json.builtins services synchroniser
                          (Turns.stop_task services)) (created (client false false))))
  = [@Turns.Done World unit (Ok tt)].
Proof.
  exact (proj1 (push_with_the_stop_of_the_base_class Json.builtins services synchroniser
                  (created (client false false)) eq_refl)).
Defined.

(** [replace] with the backup that the synchronisation of the tests
    wrote. *)
Lemma replace_ends_idle_witness :
  match replace Json.builtins services without_overrides
          (toRemoteBackupResource services "1") synced with
  | (Ok true, s') => _status s' = Idle
  | (Ok false, s') =>
      _status s' = _status synced /\ syncPreviewPromise s' = syncPreviewPromise synced
  | (Throw _, s') =>
      _status s' = Idle \/
      _status s' = _status synced /\ syncPreviewPromise s' = syncPreviewPromise synced
  | (Diverge, _) => True
  end.
Proof.
  apply (replace_ends_idle Json.builtins services without_overrides
           (toRemoteBackupResource services "1") synced).
  intros s0. reflexivity.
Defined.

(** [pull] of the synchroniser of the tests. *)
Lemma pull_and_push_end_idle_witness :
  exists r,
    fst (Turns.after_turns 6 (Turns.pull Json.builtins services synchroniser
                                (Turns.stop_task services)) (created (client false false)))
    = @Turns.Done World unit r /\
    (r <> Diverge ->
     _status (snd (Turns.after_turns 6 (Turns.pull Json.builtins services synchroniser
                                          (Turns.stop_task services))
                     (created (client false false)))) = Idle).
Proof.
  exact (proj1 (pull_and_push_end_idle Json.builtins services synchroniser
                  (created (client false false)) eq_refl)).
Defined.

(** The record of reference [1], and a manifest whose latest reference is
    [1]. *)
Lemma last_sync_record_saves_the_read_witness :
  let s1 := snd (updateLastSyncUserData Json.builtins services (remote_at "1" 1) ∅
                   (created (client false false))) in
  exists lastSync,
    getLastSyncUserData Json.builtins services s1 = (Ok (Some lastSync), s1) /\
    ref lastSync = JStr "1" /\
    syncData lastSync = Some (mkSyncData 1 (Some "machine-1") "") /\
    getLatestRemoteUserData Json.builtins services (manifest (world synced))
      (Some lastSync) s1 = (Ok lastSync, s1) /\
    hasPreviouslySynced Json.builtins services s1 = (Ok true, s1).
Proof.
  apply (last_sync_record_saves_the_read Json.builtins services (remote_at "1" 1) "1"
           (mkSyncData 1 (Some "machine-1") "") (manifest (world synced))
           (created (client false false))).
  - reflexivity.
  - reflexivity.
  - vm_compute. reflexivity.
  - vm_compute. reflexivity.
  - vm_compute. reflexivity.
Defined.
End FurtherWitnesses.
